(** * jibrail-bot: candle source, signal engine and balance ledger

    A shallow embedding of [src/bot.py].  Python floats are IEEE binary64
    numbers, modelled by Rocq's primitive floats, so every arithmetic step
    rounds exactly as the interpreter does and NaN and the infinities are
    part of the model.  Exceptions are values of a small error monad;
    the module-level [capital], the Telegram transport and the random
    generator are fields of an explicit state; the two candle providers and
    the wall clock are fields of a [world] record the jobs read.  Message
    texts are kept as the data they render. *)

From Stdlib Require Import Floats ZArith List String Ascii Bool Lia.
From Stdlib Require Import DecimalString.
From Stdlib Require Import Sorting.Sorted Sorting.Permutation.
Import ListNotations.

Set Warnings "-inexact-float".

(* ------------------------------------------------------------------ *)
(** ** Exceptions *)

Inductive exn : Set :=
| ValueError        (* int(nan), a malformed JSON body *)
| OverflowError     (* int(inf) *)
| KeyError          (* df[col] on a frame without that column *)
| RequestException  (* requests.get: time-out, connection failure *)
| ProviderError.    (* anything yfinance raises *)

Inductive result (A : Type) : Type :=
| Ret (a : A)
| Raise (e : exn).
Arguments Ret {A} a.
Arguments Raise {A} e.

Definition bind {A B} (c : result A) (k : A -> result B) : result B :=
  match c with
  | Ret a => k a
  | Raise e => Raise e
  end.

Notation "x <- c ;; k" := (bind c (fun x => k))
  (at level 61, c at next level, right associativity).
Notation "' p <- c ;; k" := (bind c (fun x => match x with p => k end))
  (at level 61, p pattern, c at next level, right associativity).

(** [try: body except Exception: handler] *)
Definition try_except {A} (body : result A) (handler : exn -> A) : A :=
  match body with
  | Ret a => a
  | Raise e => handler e
  end.

(* ------------------------------------------------------------------ *)
(** ** The Python built-ins the bot applies to floats *)

Module Py.

Local Open Scope float_scope.

(** [x > y] *)
Definition gt (x y : float) : bool := y <? x.

(** [x == x], how pandas tests that a value is not NaN *)
Definition is_observation (x : float) : bool := x =? x.

(** [max(a, b)]: the built-in keeps its first argument and replaces it
    only by an item that compares greater. *)
Definition max2 (a b : float) : float := if gt b a then b else a.

(** [int(x)]: truncation towards zero; NaN and the infinities raise. *)
Definition int (x : float) : result Z :=
  match Prim2SF x with
  | S754_zero _ => Ret 0%Z
  | S754_infinity _ => Raise OverflowError
  | S754_nan => Raise ValueError
  | S754_finite s m e =>
      let a := if (0 <=? e)%Z then (Z.pos m * 2 ^ e)%Z
               else Z.shiftr (Z.pos m) (- e) in
      Ret (if s then (- a)%Z else a)
  end.

(** [str(n)] for an integer *)
Definition str (n : Z) : string := NilZero.string_of_int (Z.to_int n).

(** The integer nearest to [num / den] ([den > 0]), ties to even. *)
Definition round_half_even (num den : Z) : Z :=
  let q := (num / den)%Z in
  match (2 * (num mod den) ?= den)%Z with
  | Lt => q
  | Gt => (q + 1)%Z
  | Eq => if Z.even q then q else (q + 1)%Z
  end.

(** The double nearest to the positive rational [num / den], ties to
    even (what [strtod] returns for its decimal expansion); the quotient
    is assumed to lie in the normal range. *)
Definition nearest_double (num den : Z) : float :=
  let k0 := (53 + Z.log2 den - Z.log2 num)%Z in
  let scaled k := if (0 <=? k)%Z then (num * 2 ^ k, den)%Z
                  else (num, den * 2 ^ (- k))%Z in
  let k := let '(n, d) := scaled k0 in
           if (2 ^ 53 * d <=? n)%Z then (k0 - 1)%Z else k0 in
  let '(n, d) := scaled k in
  Z.ldexp (of_uint63 (Uint63.of_Z (round_half_even n d))) (- k).

(** [round(x, 2)]: CPython rounds the exact value of [x] to two decimals,
    half to even, and returns the double nearest to that decimal; NaN,
    the infinities and the zeros come back unchanged. *)
Definition round2 (x : float) : float :=
  match Prim2SF x with
  | S754_finite s m e =>
      if (0 <=? e)%Z then x
      else
        let n := round_half_even (Z.pos m * 100) (2 ^ (- e)) in
        let r := if (n =? 0)%Z then 0 else nearest_double n 100 in
        if s then - r else r
  | _ => x
  end.

End Py.

(* ------------------------------------------------------------------ *)
(** ** Configuration (the CONFIG block, read from the environment) *)

Record config : Set := {
  START_CAPITAL  : float;
  RISK_PERCENT   : float;
  RR             : float;
  DEMO_RESULT    : bool;
  TWELVEDATA_KEY : string
}.

Definition PAIR_LIST : list string := ["EUR/USD"; "GBP/USD"]%string.

(** The defaults of the CONFIG block. *)
Definition default_config : config :=
  {| START_CAPITAL := 1000; RISK_PERCENT := 2; RR := 2;
     DEMO_RESULT := false; TWELVEDATA_KEY := "" |}.

(* ------------------------------------------------------------------ *)
(** ** Data frames *)

(** One row of a frame: the four price columns.  The other columns a
    provider sends ([datetime], volume) are never read and are left out. *)
Record Candle : Set := {
  open  : float;
  high  : float;
  low   : float;
  close : float
}.

(** A frame, one record per row, row 0 first. *)
Definition dataframe : Set := list Candle.

(* ------------------------------------------------------------------ *)
(** ** pandas: [Series.ewm(span=s).mean()]

    The defaults apply: [adjust=True], [ignore_na=False], [min_periods=0]
    (one observation is enough).  The loop is the one of pandas'
    [window.aggregations.ewm]. *)

Module Pandas.

Local Open Scope float_scope.

Definition comass (span : float) : float := (span - 1) / 2.

Fixpoint ewm_loop (old_wt_factor new_wt : float)
         (weighted old_wt : float) (nobs : nat) (vals : list float)
  : list float :=
  match vals with
  | [] => []
  | cur :: rest =>
      let is_observation := Py.is_observation cur in
      let nobs := if is_observation then S nobs else nobs in
      let '(weighted, old_wt) :=
        if Py.is_observation weighted then
          (* is_observation or not ignore_na *)
          let old_wt := old_wt * old_wt_factor in
          if is_observation then
            (* avoid numerical errors on constant series *)
            let weighted :=
              if negb (weighted =? cur)
              then (old_wt * weighted + new_wt * cur) / (old_wt + new_wt)
              else weighted in
            (weighted, old_wt + new_wt)
          else (weighted, old_wt)
        else if is_observation then (cur, old_wt)
        else (weighted, old_wt) in
      (if (1 <=? nobs)%nat then weighted else nan)
        :: ewm_loop old_wt_factor new_wt weighted old_wt nobs rest
  end.

Definition ewm_mean (span : float) (vals : list float) : list float :=
  let alpha := 1 / (1 + comass span) in
  let old_wt_factor := 1 - alpha in
  let new_wt := 1 in
  match vals with
  | [] => []
  | weighted :: rest =>
      let nobs := if Py.is_observation weighted then 1%nat else 0%nat in
      (if (1 <=? nobs)%nat then weighted else nan)
        :: ewm_loop old_wt_factor new_wt weighted 1 nobs rest
  end.

End Pandas.

(* ------------------------------------------------------------------ *)
(** ** STRATEGY & SIGNALS: [analyze_pair] *)

Inductive direction : Set := BUY | SELL.

(** The tuple [analyze_pair] returns. *)
Record signal : Set := {
  sig_direction : direction;
  sig_entry     : float;
  sig_sl        : float;
  sig_tp        : float;
  sig_rng       : float;
  sig_rr_text   : string
}.

Section Strategy.

Variable cfg : config.

Local Open Scope float_scope.

(** [max(0.0008, abs(high - low))] *)
Definition range_proxy (high0 low0 : float) : float :=
  Py.max2 0.0008 (abs (high0 - low0)).

(** The [if direction == "BUY": ... else: ...] block: stop, target and
    the ratio text. *)
Definition levels (d : direction) (entry rng : float)
  : result (float * float * string) :=
  match d with
  | BUY =>
      let sl := entry - rng in
      let tp := entry + rng * RR cfg in
      n <- Py.int (RR cfg) ;;
      Ret (sl, tp, (Py.str n ++ ":1")%string)
  | SELL =>
      let sl := entry + rng in
      let tp := entry - rng * RR cfg in
      n <- Py.int (RR cfg) ;;
      Ret (sl, tp, (Py.str n ++ ":1")%string)
  end.

Definition analyze_pair (df : option dataframe) : result (option signal) :=
  match df with
  | None => Ret None
  | Some [] => Ret None
  | Some ((row :: _) as df) =>
      if (List.length df <? 60)%nat then Ret None
      else
        let EMA20 := Pandas.ewm_mean 20 (map close df) in
        let EMA50 := Pandas.ewm_mean 50 (map close df) in
        let direction :=
          if Py.gt (hd nan EMA20) (hd nan EMA50) then BUY else SELL in
        let rng := range_proxy (high row) (low row) in
        let entry := close row in
        '(sl, tp, rr_text) <- levels direction entry rng ;;
        Ret (Some {| sig_direction := direction; sig_entry := entry;
                     sig_sl := sl; sig_tp := tp; sig_rng := rng;
                     sig_rr_text := rr_text |})
  end.

End Strategy.

(* ------------------------------------------------------------------ *)
(** ** The outside world *)

(** The query string of the TwelveData request. *)
Record td_request : Set := {
  td_symbol     : string;
  td_interval   : string;
  td_outputsize : nat;
  td_apikey     : string
}.

(** A JSON cell of a row object: a value [pd.to_numeric] reads as the
    number [x] (a numeral in a string, a JSON number), or one it cannot
    read (any other text, kept here; null). *)
Inductive cell : Set :=
| Numeric (x : float)
| NonNumeric (s : string).

(** A row object of the [values] array, the shape the provider documents:
    column name to cell, each name at most once. *)
Definition json_row : Set := list (string * cell).

(** What [requests.get(url, timeout=12)], [r.json()] and the look-up of
    [js["data"]["values"]] come to. *)
Inductive td_reply : Set :=
| TdRaise (e : exn)                  (* one of the three steps raises *)
| TdNoValues                         (* "values" not in js.get("data", {}) *)
| TdValues (values : list json_row). (* js["data"]["values"] *)

(** A row of the table [yf.Ticker(t).history(...)] returns. *)
Record ybar : Set := {
  y_index : Z;        (* the DatetimeIndex entry *)
  y_Open  : float;
  y_High  : float;
  y_Low   : float;
  y_Close : float
}.

Inductive yahoo_reply : Set :=
| YRaise (e : exn)
| YNone
| YTable (rows : list ybar).

Record world : Type := {
  http_get      : td_request -> td_reply;
  yf_history    : string -> yahoo_reply;   (* period="2d", interval="60m" *)
  weekday       : Z;                       (* now_dhaka().weekday(), Monday=0 *)
  day           : Z;                       (* now_dhaka().day *)
  random_random : nat -> float             (* the n-th draw of random.random() *)
}.

(** The provider calls one fetch makes, in order. *)
Inductive query : Set :=
| AskTwelveData (r : td_request)
| AskYahoo (ticker : string).

(* ------------------------------------------------------------------ *)
(** ** HELPERS *)

(** [s.replace("/", by)] *)
Fixpoint replace_slash (by_ s : string) : string :=
  match s with
  | EmptyString => EmptyString
  | String c rest =>
      if Ascii.eqb c "/"%char then (by_ ++ replace_slash by_ rest)%string
      else String c (replace_slash by_ rest)
  end.

Definition symbol_to_yahoo (pair : string) : string :=
  (replace_slash "" pair ++ "=X")%string.

Definition is_weekend_off (w : world) : bool :=
  existsb (Z.eqb (weekday w)) [4; 5; 6]%Z.

(* ------------------------------------------------------------------ *)
(** ** DATA FETCHERS *)

Fixpoint lookup (col : string) (r : json_row) : option cell :=
  match r with
  | [] => None
  | (k, v) :: rest => if String.eqb k col then Some v else lookup col rest
  end.

(** [pd.to_numeric(..., errors="coerce")] on one cell of a column; a row
    without the key holds NaN already. *)
Definition to_numeric (c : option cell) : float :=
  match c with
  | Some (Numeric x) => x
  | Some (NonNumeric _) => nan
  | None => nan
  end.

(** [df[col]] on [pd.DataFrame(values)]: the frame has the union of the
    rows' keys as columns. *)
Definition column (values : list json_row) (col : string)
  : result (list (option cell)) :=
  if existsb (fun r => match lookup col r with Some _ => true | None => false end)
             values
  then Ret (map (lookup col) values)
  else Raise KeyError.

Definition coerce_row (r : json_row) : Candle :=
  {| open  := to_numeric (lookup "open" r);
     high  := to_numeric (lookup "high" r);
     low   := to_numeric (lookup "low" r);
     close := to_numeric (lookup "close" r) |}.

Section Fetchers.

Variable cfg : config.
Variable w : world.

Definition td_url (pair : string) : td_request :=
  {| td_symbol := replace_slash "%2F" pair;
     td_interval := "1h";
     td_outputsize := 30;
     td_apikey := TWELVEDATA_KEY cfg |}.

(** The body of the [try] of [fetch_from_twelvedata], once the key is
    known to be set. *)
Definition twelvedata_try (pair : string) : result (option dataframe) :=
  match http_get w (td_url pair) with
  | TdRaise e => Raise e
  | TdNoValues => Ret None
  | TdValues values =>
      _ <- column values "open" ;;
      _ <- column values "high" ;;
      _ <- column values "low" ;;
      _ <- column values "close" ;;
      Ret (Some (map coerce_row values))
  end.

Definition fetch_from_twelvedata (pair : string)
  : option dataframe * list query :=
  if String.eqb (TWELVEDATA_KEY cfg) "" then (None, [])
  else (try_except (twelvedata_try pair) (fun _ => None),
        [AskTwelveData (td_url pair)]).

(** [data.sort_index(ascending=False)]: most recent first; rows that share
    an index entry keep the order the table had them in. *)
Fixpoint insert_desc (b : ybar) (l : list ybar) : list ybar :=
  match l with
  | [] => [b]
  | x :: rest =>
      if (y_index x <=? y_index b)%Z then b :: l
      else x :: insert_desc b rest
  end.

Definition sort_index_desc (rows : list ybar) : list ybar :=
  fold_right insert_desc [] rows.

Definition candle_of_bar (b : ybar) : Candle :=
  {| open := y_Open b; high := y_High b; low := y_Low b;
     close := y_Close b |}.

Definition yahoo_try (pair : string) : result (option dataframe) :=
  match yf_history w (symbol_to_yahoo pair) with
  | YRaise e => Raise e
  | YNone => Ret None
  | YTable [] => Ret None                      (* data.empty *)
  | YTable rows => Ret (Some (map candle_of_bar (sort_index_desc rows)))
  end.

Definition fetch_from_yahoo (pair : string)
  : option dataframe * list query :=
  (try_except (yahoo_try pair) (fun _ => None),
   [AskYahoo (symbol_to_yahoo pair)]).

Definition get_candle (pair : string) : option dataframe * list query :=
  let '(df, asked) := fetch_from_twelvedata pair in
  match df with
  | None =>
      let '(df, asked') := fetch_from_yahoo pair in
      (df, asked ++ asked')
  | Some _ => (df, asked)
  end.

End Fetchers.

(* ------------------------------------------------------------------ *)
(** ** Messages and the mutable state *)

(** What a message text is rendered from. *)
Inductive message : Set :=
| SignalMsg (pair : string) (s : signal) (risk reward : float)
| ResultMsg (pair : string) (win : bool) (level amount balance : float)
| HeartbeatMsg (lines : list (string * option float))
| WeekendRestMsg
| MorningMsg
| MonthlyResetMsg.

Record state : Set := {
  capital : float;            (* the global [capital] *)
  outbox  : list message;     (* the calls of bot.send_message, oldest first *)
  draws   : nat               (* random.random() calls made so far *)
}.

(** [send]: the transport call is attempted once; its failure is printed
    and swallowed. *)
Definition send (text : message) (st : state) : state :=
  {| capital := capital st; outbox := outbox st ++ [text]; draws := draws st |}.

Definition set_capital (c : float) (st : state) : state :=
  {| capital := c; outbox := outbox st; draws := draws st |}.

Definition next_draw (st : state) : state :=
  {| capital := capital st; outbox := outbox st; draws := S (draws st) |}.

Definition initial_state (cfg : config) : state :=
  {| capital := START_CAPITAL cfg; outbox := []; draws := 0 |}.

(* ------------------------------------------------------------------ *)
(** ** The scheduled jobs *)

Section Jobs.

Variable cfg : config.
Variable w : world.

Local Open Scope float_scope.

Definition send_result (pair : string) (win : bool)
           (entry sl tp risk reward : float) (st : state) : state :=
  if win then
    let st := set_capital (capital st + reward) st in
    send (ResultMsg pair true tp reward (capital st)) st
  else
    let st := set_capital (capital st - risk) st in
    send (ResultMsg pair false sl risk (capital st)) st.

(** One turn of the [for pair in PAIR_LIST] loop of [signal_scan]. *)
Definition scan_pair (risk reward : float) (pair : string) (st : state)
  : result state :=
  let df := fst (get_candle cfg w pair) in
  match df with
  | None => Ret st                                       (* continue *)
  | Some _ =>
      res <- analyze_pair cfg df ;;
      match res with
      | None => Ret st                                   (* continue *)
      | Some s =>
          let st := send (SignalMsg pair s risk reward) st in
          if DEMO_RESULT cfg then
            let win := Py.gt (random_random w (draws st)) 0.35 in
            Ret (send_result pair win (sig_entry s) (sig_sl s) (sig_tp s)
                             risk reward (next_draw st))
          else Ret st
      end
  end.

Fixpoint for_each (body : string -> state -> result state)
         (pairs : list string) (st : state) : result state :=
  match pairs with
  | [] => Ret st
  | p :: rest => st' <- body p st ;; for_each body rest st'
  end.

Definition signal_scan (st : state) : result state :=
  if is_weekend_off w then Ret st
  else
    let risk := Py.round2 (capital st * (RISK_PERCENT cfg / 100)) in
    let reward := Py.round2 (risk * RR cfg) in
    for_each (scan_pair risk reward) PAIR_LIST st.

Definition heartbeat (st : state) : state :=
  let line pair :=
    match fst (get_candle cfg w pair) with
    | Some (row :: _) => (pair, Some (close row))
    | _ => (pair, None)
    end in
  send (HeartbeatMsg (map line PAIR_LIST)) st.

Definition morning_activation (st : state) : state :=
  if is_weekend_off w then send WeekendRestMsg st
  else send MorningMsg st.

Definition monthly_auto_reset (st : state) : state :=
  if negb (day w =? 1)%Z then st
  else send MonthlyResetMsg (set_capital (START_CAPITAL cfg) st).

End Jobs.

(* ------------------------------------------------------------------ *)
(** ** Outcomes and message counts *)

(** A simulated result, as the arguments [send_result] receives. *)
Record outcome : Set := {
  o_pair   : string;
  o_win    : bool;
  o_entry  : float;
  o_sl     : float;
  o_tp     : float;
  o_risk   : float;
  o_reward : float
}.

Definition apply_outcome (st : state) (o : outcome) : state :=
  send_result (o_pair o) (o_win o) (o_entry o) (o_sl o) (o_tp o)
              (o_risk o) (o_reward o) st.

Definition is_signal_for (p : string) (m : message) : bool :=
  match m with
  | SignalMsg q _ _ _ => String.eqb q p
  | _ => false
  end.

Definition is_result_for (p : string) (m : message) : bool :=
  match m with
  | ResultMsg q _ _ _ _ => String.eqb q p
  | _ => false
  end.

(** How many of [msgs] satisfy [f]. *)
Definition count (f : message -> bool) (msgs : list message) : nat :=
  List.length (filter f msgs).

(** Fetch and analysis both succeed for the pair. *)
Definition produces (cfg : config) (w : world) (p : string) : bool :=
  match fst (get_candle cfg w p) with
  | Some df =>
      match analyze_pair cfg (Some df) with
      | Ret (Some _) => true
      | _ => false
      end
  | None => false
  end.

(* ------------------------------------------------------------------ *)
(** ** The spec's moving average and its display format, for comparison *)

Module Spec.

Local Open Scope float_scope.

(** The spec's EMA, in its words: smoothing factor [2 / (span + 1)],
    seeded by the first available value, run over the candles in the
    order they happened; the value at the latest candle. *)
Definition ema_latest (span : float) (chronological : list float) : float :=
  let alpha := 2 / (span + 1) in
  match chronological with
  | [] => nan
  | seed :: rest =>
      fold_left (fun e x => alpha * x + (1 - alpha) * e) rest seed
  end.

(** The digits [format(x, ".5f")] prints for a finite [x], as the
    integer they spell without the point: the exact value of [x] times
    [10^5], rounded half to even. *)
Definition fixed5 (x : float) : option Z :=
  match Prim2SF x with
  | S754_zero _ => Some 0%Z
  | S754_finite s m e =>
      let n := if (0 <=? e)%Z then (Z.pos m * 2 ^ e * 100000)%Z
               else Py.round_half_even (Z.pos m * 100000) (2 ^ (- e)) in
      Some (if s then (- n)%Z else n)
  | _ => None
  end.

End Spec.

(* ------------------------------------------------------------------ *)
(** ** Sample configurations, frames and worlds *)

Module Samples.

Local Open Scope float_scope.

(** Sixty identical candles. *)
Definition flat_candle : Candle :=
  {| open := 1.1; high := 1.1005; low := 1.0995; close := 1.1 |}.

Definition flat60 : dataframe := repeat flat_candle 60.

(** Sixty hourly candles of a steady climb, newest first: the close of
    row [k] is [(124 - k) / 64], so the latest close is 1.9375 and the
    oldest 1.015625; each candle opens at its low, one step of 1/64
    below, and closes at its high.  Every price is a dyadic number, so
    no literal and no difference below is rounded. *)
Definition rising_candle (k : nat) : Candle :=
  let c := of_uint63 (Uint63.of_Z (124 - Z.of_nat k)) / 64 in
  {| open := c - 0.015625; high := c; low := c - 0.015625; close := c |}.

Definition rising60 : dataframe := map rising_candle (seq 0 60).

End Samples.

Module Worlds.

Local Open Scope float_scope.

(** A world whose providers have nothing to give, on a given weekday and
    day of the month. *)
Definition silent (wd d : Z) : world :=
  {| http_get := fun _ => TdNoValues;
     yf_history := fun _ => YNone;
     weekday := wd;
     day := d;
     random_random := fun _ => 0.5 |}.

Definition with_capital (c : float) : state :=
  {| capital := c; outbox := []; draws := 0 |}.

End Worlds.

Module Replies.

Local Open Scope float_scope.
Local Open Scope string_scope.

(** The configuration with a TwelveData key set. *)
Definition keyed_config : config :=
  {| START_CAPITAL := 1000; RISK_PERCENT := 2; RR := 2;
     DEMO_RESULT := false; TWELVEDATA_KEY := "demo" |}.

(** A world whose primary provider answers with [values]. *)
Definition twelvedata (values : list json_row) : world :=
  {| http_get := fun _ => TdValues values;
     yf_history := fun _ => YNone;
     weekday := 0; day := 1;
     random_random := fun _ => 0.5 |}.

(** A world without a usable primary whose secondary answers with
    [rows], on weekday [wd]. *)
Definition yahoo (wd : Z) (rows : list ybar) : world :=
  {| http_get := fun _ => TdNoValues;
     yf_history := fun _ => YTable rows;
     weekday := wd; day := 1;
     random_random := fun _ => 0.5 |}.

Definition good_row : json_row :=
  [("datetime", NonNumeric "2024-01-02 10:00:00");
   ("open", Numeric 1.25); ("high", Numeric 1.5);
   ("low", Numeric 1.125); ("close", Numeric 1.375)].

(** A row whose close is not a number. *)
Definition bad_row : json_row :=
  [("datetime", NonNumeric "2024-01-02 09:00:00");
   ("open", Numeric 1.25); ("high", Numeric 1.5);
   ("low", Numeric 1.125); ("close", NonNumeric "n/a")].

(** A reply of sixty rows, twice the size the request asks for. *)
Definition sixty_rows : list json_row := repeat good_row 60.

(** Two hourly bars, oldest first as the provider sends them. *)
Definition two_bars : list ybar :=
  [ {| y_index := 1704189600; y_Open := 1.25; y_High := 1.5;
       y_Low := 1.125; y_Close := 1.375 |};
    {| y_index := 1704193200; y_Open := 1.375; y_High := 1.625;
       y_Low := 1.25; y_Close := 1.5 |} ].

(** The climb of [Samples.rising60] as the secondary provider sends
    it: oldest first, one bar per hour. *)
Definition rising_bars : list ybar :=
  map (fun k =>
         let c := Samples.rising_candle (59 - k) in
         {| y_index := 1704189600 + 3600 * Z.of_nat k;
            y_Open := open c; y_High := high c;
            y_Low := low c; y_Close := close c |})
      (seq 0 60).

End Replies.

Module Demo.

(** The defaults with the demo toggle on. *)
Definition config_on : config :=
  {| START_CAPITAL := 1000; RISK_PERCENT := 2; RR := 2;
     DEMO_RESULT := true; TWELVEDATA_KEY := "" |}.

(** The signal both pairs get from [Replies.rising_bars]. *)
Definition rising_signal : signal :=
  {| sig_direction := SELL; sig_entry := 1.9375; sig_sl := 1.953125;
     sig_tp := 1.90625; sig_rng := 0.015625; sig_rr_text := "2:1" |}.

End Demo.

(* ------------------------------------------------------------------ *)
(** ** Vocabulary for the further properties *)

(** No character of [s] is a slash. *)
Fixpoint no_slash (s : string) : bool :=
  match s with
  | EmptyString => true
  | String c rest => negb (Ascii.eqb c "/"%char) && no_slash rest
  end.

(** Newest first: every row is at least as recent as the rows after it. *)
Definition newest_first (l : list ybar) : Prop :=
  Sorted.StronglySorted (fun a b => (y_index b <= y_index a)%Z) l.

(** The frame of a pair has 60 rows or more. *)
Definition long_frame (cfg : config) (w : world) (p : string) : bool :=
  match fst (get_candle cfg w p) with
  | Some df => (60 <=? List.length df)%nat
  | None => false
  end.

(** Reading a run of messages as a ledger: starting from the balance [c],
    every result message reports the balance its own amount leads to, and
    the run ends at [c']. *)
Fixpoint consistent (c : float) (msgs : list message) (c' : float) : Prop :=
  match msgs with
  | [] => c' = c
  | ResultMsg _ win _ amount balance :: rest =>
      balance = (if win then c + amount else c - amount)%float /\
      consistent balance rest c'
  | _ :: rest => consistent c rest c'
  end.

(** A message of a scan that sizes its trades with [risk] and [reward]. *)
Definition sized (risk reward : float) (m : message) : Prop :=
  match m with
  | SignalMsg _ _ r rw => r = risk /\ rw = reward
  | ResultMsg _ win _ amount _ => amount = if win then reward else risk
  | _ => True
  end.

(** A signal message whose entry is the close, and whose range is the
    range, of row 0 of the frame fetched for its pair. *)
Definition from_latest (cfg : config) (w : world) (m : message) : Prop :=
  match m with
  | SignalMsg q s _ _ =>
      exists row rest,
        fst (get_candle cfg w q) = Some (row :: rest) /\
        sig_entry s = close row /\
        sig_rng s = range_proxy (high row) (low row)
  | _ => True
  end.

(** The lines of the heartbeat message a state ends with. *)
Definition last_heartbeat (st : state) : option (list (string * option float)) :=
  match last (outbox st) MorningMsg with
  | HeartbeatMsg lines => Some lines
  | _ => None
  end.

(* ================================================================== *)
(** * The built-ins on sample values *)

(** [round(x, 2)] as the interpreter prints it: 2.675 is stored just
    below the tie and goes down, 0.125 is an exact tie and goes to the
    even digit, and two percent of 1000 is 20. *)
Example round2_samples :
  Py.round2 2.675 = 2.67%float /\ Py.round2 0.125 = 0.12%float /\
  Py.round2 0.375 = 0.38%float /\ Py.round2 (-0.001) = (-0)%float /\
  Py.round2 (1000 * (2 / 100)) = 20%float /\ Py.round2 nan = nan.
Proof. repeat split. Qed.

Example int_samples :
  Py.int 2 = Ret 2%Z /\ Py.int 2.9 = Ret 2%Z /\ Py.int (-2.9) = Ret (-2)%Z /\
  Py.int nan = Raise ValueError /\ Py.int infinity = Raise OverflowError.
Proof. repeat split. Qed.

Example helper_samples :
  symbol_to_yahoo "EUR/USD" = "EURUSD=X"%string /\
  td_symbol (td_url default_config "GBP/USD") = "GBP%2FUSD"%string /\
  Pandas.ewm_mean 20 [1; 2]%float = [1; 1.5250000000000001]%float.
Proof. repeat split. Qed.

(* ================================================================== *)
(** * Facts about binary64 comparison *)

Module FloatFacts.

Local Open Scope float_scope.

Lemma SFcompare_refl_not_Lt (x : spec_float) : SFcompare x x <> Some Lt.
Proof.
  destruct x as [s | s | | s m e]; simpl; try discriminate.
  - destruct s; discriminate.
  - rewrite Z.compare_refl, Pos.compare_refl. destruct s; discriminate.
Qed.

(** [x < x] is false for every float, NaN included. *)
Lemma ltb_irrefl (x : float) : (x <? x) = false.
Proof.
  rewrite ltb_spec. unfold SFltb.
  pose proof (SFcompare_refl_not_Lt (Prim2SF x)) as H.
  destruct (SFcompare (Prim2SF x) (Prim2SF x)) as [[ | | ] | ];
    congruence.
Qed.

(** [x < y] implies [x <= y]. *)
Lemma ltb_leb (x y : float) : (x <? y) = true -> (x <=? y) = true.
Proof.
  rewrite ltb_spec, leb_spec. unfold SFltb, SFleb.
  destruct (SFcompare (Prim2SF x) (Prim2SF y)) as [[ | | ] | ];
    congruence.
Qed.

(** Only NaN differs from itself, and the model has one NaN. *)
Lemma not_self_equal_is_nan (x : float) : (x =? x) = false -> x = nan.
Proof.
  rewrite FloatAxioms.eqb_spec. unfold SFeqb. intros H.
  rewrite <- (SF2Prim_Prim2SF x).
  destruct (Prim2SF x) as [s | s | | s m e]; simpl in H.
  - discriminate.
  - destruct s; discriminate.
  - reflexivity.
  - rewrite Z.compare_refl, Pos.compare_refl in H.
    destruct s; discriminate.
Qed.

Lemma max2_floor (a b : float) : (a <=? a) = true -> (a <=? Py.max2 a b) = true.
Proof.
  intros Ha. unfold Py.max2, Py.gt.
  destruct (a <? b) eqn:E; [ now apply ltb_leb | exact Ha ].
Qed.

(** Comparing the other way round gives the opposite answer. *)
Lemma SFcompare_antisym (x y : spec_float) :
  SFcompare y x = option_map CompOpp (SFcompare x y).
Proof.
  destruct x as [s1 | s1 | | s1 m1 e1], y as [s2 | s2 | | s2 m2 e2];
    try destruct s1; try destruct s2; simpl; try reflexivity.
  all: rewrite (Z.compare_antisym e1 e2);
    change (PosDef.Pos.compare_cont Eq m2 m1) with (Pos.compare m2 m1);
    change (PosDef.Pos.compare_cont Eq m1 m2) with (Pos.compare m1 m2);
    rewrite (Pos.compare_antisym m1 m2);
    destruct (e1 ?= e2)%Z; destruct (m1 ?= m2)%positive; reflexivity.
Qed.

(** Two numbers always compare. *)
Lemma SFcompare_numbers (x y : spec_float) :
  SFeqb x x = true -> SFeqb y y = true -> SFcompare x y <> None.
Proof.
  unfold SFeqb.
  destruct x as [s1 | s1 | | s1 m1 e1], y as [s2 | s2 | | s2 m2 e2];
    simpl; try discriminate.
Qed.

(** Between numbers, [a < b] or [b <= a]. *)
Lemma not_ltb_leb (a b : float) :
  (a =? a) = true -> (b =? b) = true -> (a <? b) = false -> (b <=? a) = true.
Proof.
  rewrite !FloatAxioms.eqb_spec, ltb_spec, leb_spec.
  intros Ha Hb. pose proof (SFcompare_numbers _ _ Ha Hb) as Hc.
  unfold SFltb, SFleb. rewrite (SFcompare_antisym (Prim2SF a) (Prim2SF b)).
  destruct (SFcompare (Prim2SF a) (Prim2SF b)) as [[ | | ] | ]; simpl;
    congruence.
Qed.

Lemma eqb_leb_refl (x : float) : (x =? x) = true -> (x <=? x) = true.
Proof.
  rewrite FloatAxioms.eqb_spec, leb_spec. unfold SFeqb, SFleb.
  destruct (SFcompare (Prim2SF x) (Prim2SF x)) as [[ | | ] | ]; congruence.
Qed.

(** [max(a, b)] is not below [b] when both are numbers. *)
Lemma max2_upper (a b : float) :
  (a =? a) = true -> (b =? b) = true -> (b <=? Py.max2 a b) = true.
Proof.
  intros Ha Hb. unfold Py.max2, Py.gt.
  destruct (a <? b) eqn:E; [ now apply eqb_leb_refl | now apply not_ltb_leb ].
Qed.

End FloatFacts.

(* ================================================================== *)
(** * The signal engine *)

Section StrategyFacts.

Variable cfg : config.

Local Open Scope float_scope.

(** Row 0 of an exponentially weighted mean is the first value fed in,
    whatever the span. *)
Lemma ewm_mean_row0 (span v0 : float) (rest : list float) :
  hd nan (Pandas.ewm_mean span (v0 :: rest)) = v0.
Proof.
  unfold Pandas.ewm_mean; simpl hd. unfold Py.is_observation.
  destruct (v0 =? v0) eqn:E; simpl; [ reflexivity | ].
  symmetry. now apply FloatFacts.not_self_equal_is_nan.
Qed.

(** Both branches of [levels] fail or succeed with [int(RR)]. *)
Lemma levels_ok (d : direction) (entry rng : float) (n : Z) :
  Py.int (RR cfg) = Ret n ->
  levels cfg d entry rng =
  Ret (match d with
       | BUY => (entry - rng, entry + rng * RR cfg)
       | SELL => (entry + rng, entry - rng * RR cfg)
       end, (Py.str n ++ ":1")%string).
Proof.
  intros H. destruct d; unfold levels; rewrite H; reflexivity.
Qed.

Lemma levels_raise (d : direction) (entry rng : float) (e : exn) :
  Py.int (RR cfg) = Raise e -> levels cfg d entry rng = Raise e.
Proof.
  intros H. destruct d; unfold levels; rewrite H; reflexivity.
Qed.

(** What [analyze_pair] computes on a frame it accepts: the direction
    test compares the latest close with itself. *)
Lemma analyze_pair_accepted (row : Candle) (rest : list Candle) :
  (60 <= List.length (row :: rest))%nat ->
  analyze_pair cfg (Some (row :: rest)) =
  ('(sl, tp, rr_text) <-
     levels cfg SELL (close row) (range_proxy (high row) (low row)) ;;
   Ret (Some {| sig_direction := SELL; sig_entry := close row;
                sig_sl := sl; sig_tp := tp;
                sig_rng := range_proxy (high row) (low row);
                sig_rr_text := rr_text |})).
Proof.
  intros Hlen. unfold analyze_pair.
  destruct (List.length (row :: rest) <? 60)%nat eqn:E.
  - apply Nat.ltb_lt in E. lia.
  - cbn [map]. rewrite !ewm_mean_row0. unfold Py.gt.
    rewrite FloatFacts.ltb_irrefl. reflexivity.
Qed.

Lemma analyze_pair_short (df : dataframe) :
  (List.length df < 60)%nat -> analyze_pair cfg (Some df) = Ret None.
Proof.
  intros Hlen. unfold analyze_pair. destruct df as [ | row rest];
    [ reflexivity | ].
  apply Nat.ltb_lt in Hlen. now rewrite Hlen.
Qed.

End StrategyFacts.

(* ================================================================== *)
(** * Claims about the signal engine *)

(** C1 (the code departs from it): on the steady climb [rising60] the
    spec's EMA20 is above its EMA50 at the latest candle, and so is pandas'
    own weighted mean when it is run in time order and read at its last
    row, yet [analyze_pair] answers SELL, with the stop above the entry
    and the target below it. *)
Theorem analyze_pair_sells_a_rising_series :
  let closes := map close Samples.rising60 in
  List.length Samples.rising60 = 60%nat /\
  Py.gt (Spec.ema_latest 20 (rev closes)) (Spec.ema_latest 50 (rev closes))
    = true /\
  Py.gt (last (Pandas.ewm_mean 20 (rev closes)) nan)
        (last (Pandas.ewm_mean 50 (rev closes)) nan) = true /\
  analyze_pair default_config (Some Samples.rising60) =
  Ret (Some {| sig_direction := SELL; sig_entry := 1.9375;
               sig_sl := 1.953125; sig_tp := 1.90625;
               sig_rng := 0.015625; sig_rr_text := "2:1" |}).
Proof.
  vm_compute. repeat split; reflexivity.
Qed.

(** C2: on every frame [analyze_pair] accepts (60 rows or more), row 0 of
    the EMA20 and of the EMA50 column is the latest close itself, so the
    strict comparison never selects BUY: with a finite RR a signal is
    returned and its direction is SELL, and no returned signal has another
    direction. *)
Theorem analyze_pair_direction_is_sell
        (cfg : config) (df : dataframe) (H60 : (60 <= List.length df)%nat) :
  (exists row rest, df = row :: rest /\
     hd nan (Pandas.ewm_mean 20 (map close df)) = close row /\
     hd nan (Pandas.ewm_mean 50 (map close df)) = close row) /\
  (forall n, Py.int (RR cfg) = Ret n ->
     exists s, analyze_pair cfg (Some df) = Ret (Some s) /\
               sig_direction s = SELL) /\
  (forall r, analyze_pair cfg (Some df) = Ret r ->
     exists s, r = Some s /\ sig_direction s = SELL).
Proof.
  destruct df as [ | row rest]; [ simpl in H60; lia | ].
  split; [ | split ].
  - exists row, rest. cbn [map]. now rewrite !ewm_mean_row0.
  - intros n Hn. rewrite analyze_pair_accepted by exact H60.
    rewrite (levels_ok cfg SELL _ _ n Hn). cbn. eexists; split; reflexivity.
  - intros r Hr. rewrite analyze_pair_accepted in Hr by exact H60.
    destruct (Py.int (RR cfg)) as [n | e] eqn:Hn.
    + rewrite (levels_ok cfg SELL _ _ n Hn) in Hr. cbn in Hr.
      injection Hr as <-. eexists; split; reflexivity.
    + rewrite (levels_raise cfg SELL _ _ e Hn) in Hr. discriminate.
Qed.

Lemma analyze_pair_direction_is_sell_witness :
  exists s, analyze_pair default_config (Some Samples.flat60) = Ret (Some s) /\
            sig_direction s = SELL.
Proof.
  assert (H60 : (60 <= List.length Samples.flat60)%nat)
    by (apply Nat.leb_le; reflexivity).
  exact (proj1 (proj2 (analyze_pair_direction_is_sell
                         default_config Samples.flat60 H60))
               2%Z eq_refl).
Defined.

(** Equal prices leave a zero or undefined difference, never one above
    the floor. *)
Lemma range_proxy_flat (h l : float) :
  (h =? l)%float = true -> range_proxy h l = 0.0008%float.
Proof.
  intros Heq. unfold range_proxy, Py.max2, Py.gt.
  enough (E : (0.0008 <? abs (h - l))%float = false) by now rewrite E.
  rewrite ltb_spec, abs_spec, sub_spec.
  rewrite FloatAxioms.eqb_spec in Heq. unfold SFeqb in Heq.
  destruct (Prim2SF h) as [s1 | s1 | | s1 m1 e1],
           (Prim2SF l) as [s2 | s2 | | s2 m2 e2];
    try destruct s1; try destruct s2; simpl in Heq; try discriminate;
    try reflexivity.
  all: assert (E : e1 = e2 /\ m1 = m2)
    by (destruct (Z.compare_spec e1 e2); try discriminate;
        change (PosDef.Pos.compare_cont Eq m1 m2) with (Pos.compare m1 m2) in Heq;
        destruct (Pos.compare_spec m1 m2); try discriminate; auto).
  all: destruct E as (-> & ->).
  all: unfold SF64sub, SFsub; rewrite Z.sub_diag; reflexivity.
Qed.

(** C9: on every accepted frame (with a finite RR, so that a signal is
    returned) the volatility proxy of the signal is
    [max(0.0008, |high - low|)] of the latest candle: it is the range
    [|high - low|] when that exceeds 0.0008 and 0.0008 when it does not;
    it is at least 0.0008 whatever the two prices are and at least the
    range whenever the range is a number; and it is exactly 0.0008 when
    the latest high equals the latest low. *)
Theorem analyze_pair_range_floor
        (cfg : config) (row : Candle) (rest : list Candle) (n : Z)
        (H60 : (60 <= List.length (row :: rest))%nat)
        (HRR : Py.int (RR cfg) = Ret n) :
  exists s, analyze_pair cfg (Some (row :: rest)) = Ret (Some s) /\
    sig_rng s = Py.max2 0.0008 (abs (high row - low row)) /\
    (0.0008 <=? sig_rng s)%float = true /\
    ((high row =? low row)%float = true -> sig_rng s = 0.0008%float) /\
    ((0.0008 <? abs (high row - low row))%float = true ->
     sig_rng s = abs (high row - low row)) /\
    ((0.0008 <? abs (high row - low row))%float = false ->
     sig_rng s = 0.0008%float) /\
    ((abs (high row - low row) =? abs (high row - low row))%float = true ->
     (abs (high row - low row) <=? sig_rng s)%float = true).
Proof.
  rewrite analyze_pair_accepted by exact H60.
  rewrite (levels_ok cfg SELL _ _ n HRR). cbn.
  eexists; split; [ reflexivity | ]. cbn.
  split; [ reflexivity | split; [ | split; [ | split; [ | split ] ] ] ].
  - apply FloatFacts.max2_floor. reflexivity.
  - apply range_proxy_flat.
  - intros H. unfold range_proxy, Py.max2, Py.gt. now rewrite H.
  - intros H. unfold range_proxy, Py.max2, Py.gt. now rewrite H.
  - intros H. apply FloatFacts.max2_upper; [ reflexivity | exact H ].
Qed.

(** On the flat sample the range 1.1005 - 1.0995 is above the floor and
    is the proxy. *)
Lemma analyze_pair_range_floor_witness :
  exists s,
    analyze_pair default_config (Some Samples.flat60) = Ret (Some s) /\
    (0.0008 <=? sig_rng s)%float = true /\
    sig_rng s = abs (1.1005 - 1.0995)%float.
Proof.
  assert (H60 : (60 <= List.length Samples.flat60)%nat)
    by (apply Nat.leb_le; reflexivity).
  destruct (analyze_pair_range_floor
              default_config Samples.flat_candle (repeat Samples.flat_candle 59)
              2%Z H60 eq_refl) as (s & Hs & _ & Hfloor & _ & Habove & _).
  exists s. split; [ exact Hs | ]. split; [ exact Hfloor | ].
  apply Habove. reflexivity.
Defined.

(** C8: every signal [analyze_pair] returns has, if BUY, its stop at
    [entry - proxy] and its target at [entry + proxy * RR] and, if SELL,
    its stop at [entry + proxy] and its target at [entry - proxy * RR]
    (binary64 operations); the block that computes them does so for
    either direction; and with RR = 2, entry 1.10000 and proxy 0.0010 the
    BUY levels print, in the five decimals the message shows, as 1.09900
    and 1.10200. *)
Theorem analyze_pair_levels
        (cfg : config) (df : option dataframe) (s : signal)
        (Hs : analyze_pair cfg df = Ret (Some s)) :
  (sig_direction s = BUY ->
     sig_sl s = (sig_entry s - sig_rng s)%float /\
     sig_tp s = (sig_entry s + sig_rng s * RR cfg)%float) /\
  (sig_direction s = SELL ->
     sig_sl s = (sig_entry s + sig_rng s)%float /\
     sig_tp s = (sig_entry s - sig_rng s * RR cfg)%float) /\
  (forall entry rng,
     levels cfg BUY entry rng =
       Ret (entry - rng, entry + rng * RR cfg, sig_rr_text s)%float /\
     levels cfg SELL entry rng =
       Ret (entry + rng, entry - rng * RR cfg, sig_rr_text s)%float) /\
  (RR cfg = 2%float ->
     exists sl tp,
       levels cfg BUY 1.1 0.001 = Ret (sl, tp, "2:1"%string) /\
       Spec.fixed5 1.1 = Some 110000%Z /\
       Spec.fixed5 sl = Some 109900%Z /\
       Spec.fixed5 tp = Some 110200%Z).
Proof.
  destruct df as [[ | row rest] | ]; try discriminate.
  destruct (Nat.ltb_spec (List.length (row :: rest)) 60) as [Hlt | Hge].
  { rewrite analyze_pair_short in Hs by exact Hlt. discriminate. }
  rewrite analyze_pair_accepted in Hs by exact Hge.
  destruct (Py.int (RR cfg)) as [n | e] eqn:Hn.
  2:{ rewrite (levels_raise cfg _ _ _ e Hn) in Hs. discriminate. }
  rewrite (levels_ok cfg _ _ _ n Hn) in Hs. cbn in Hs.
  injection Hs as <-. cbn [sig_direction sig_entry sig_sl sig_tp sig_rng
                           sig_rr_text].
  split; [ discriminate | ].
  split; [ intros _; split; reflexivity | ].
  split.
  - intros entry rng.
    rewrite (levels_ok cfg BUY _ _ n Hn), (levels_ok cfg SELL _ _ n Hn).
    split; reflexivity.
  - intros H2. unfold levels. rewrite H2.
    eexists; eexists. split; [ vm_compute; reflexivity | ].
    repeat split; vm_compute; reflexivity.
Qed.

Lemma analyze_pair_levels_witness :
  exists s,
    analyze_pair default_config (Some Samples.flat60) = Ret (Some s) /\
    sig_sl s = (sig_entry s + sig_rng s)%float /\
    sig_tp s = (sig_entry s - sig_rng s * 2)%float.
Proof.
  eexists. split; [ reflexivity | ].
  exact (proj1 (proj2 (analyze_pair_levels
                         default_config (Some Samples.flat60) _ eq_refl))
               eq_refl).
Defined.

(* ================================================================== *)
(** * The balance ledger *)

(** C7: [send_result] adds exactly [reward] to the capital on a win and
    subtracts exactly [risk] on a loss (one binary64 operation each), with
    no floor and no ceiling: from 1000 with risk 20 and reward 40 a win
    gives 1040 and a loss 980, and a loss of 20 from a capital of 10
    leaves -10. *)
Theorem send_result_capital :
  (forall pair win entry sl tp risk reward st,
     capital (send_result pair win entry sl tp risk reward st) =
     if win then (capital st + reward)%float else (capital st - risk)%float) /\
  (forall pair entry sl tp,
     capital (send_result pair true entry sl tp 20 40
                          (Worlds.with_capital 1000)) = 1040%float /\
     capital (send_result pair false entry sl tp 20 40
                          (Worlds.with_capital 1000)) = 980%float) /\
  (forall pair entry sl tp,
     capital (send_result pair false entry sl tp 20 40
                          (Worlds.with_capital 10)) = (-10)%float).
Proof.
  split; [ | split ].
  - intros pair win entry sl tp risk reward st. destruct win; reflexivity.
  - intros pair entry sl tp. split; reflexivity.
  - intros pair entry sl tp. reflexivity.
Qed.

(** C6, as the claim states it, fails on the second day of a month: the
    job is called with the capital at 980 and a starting value of 1000,
    and leaves 980 in place without sending anything. *)
Lemma monthly_auto_reset_off_day :
  let st := Worlds.with_capital 980 in
  START_CAPITAL default_config = 1000%float /\
  monthly_auto_reset default_config (Worlds.silent 0 2) st = st /\
  capital (monthly_auto_reset default_config (Worlds.silent 0 2) st)
    = 980%float.
Proof.
  repeat split.
Qed.

(** C6 (amended): the day-of-month test is part of the reset job itself.
    After any sequence of outcomes, [monthly_auto_reset] leaves the capital
    at the configured starting value and announces it when the day of the
    month is 1; on any other day it leaves the state as it was. *)
Theorem monthly_auto_reset_capital
        (cfg : config) (w : world) (outcomes : list outcome) (st : state) :
  let st' := fold_left apply_outcome outcomes st in
  capital (monthly_auto_reset cfg w st') =
    (if (day w =? 1)%Z then START_CAPITAL cfg else capital st') /\
  outbox (monthly_auto_reset cfg w st') =
    (if (day w =? 1)%Z then outbox st' ++ [MonthlyResetMsg] else outbox st') /\
  (if (day w =? 1)%Z then True else monthly_auto_reset cfg w st' = st').
Proof.
  intros st'. unfold monthly_auto_reset.
  destruct (day w =? 1)%Z; repeat split.
Qed.

(* ================================================================== *)
(** * The candle source *)

Section FetcherFacts.

Variable cfg : config.
Variable w : world.

Lemma insert_desc_length (b : ybar) (l : list ybar) :
  List.length (insert_desc b l) = S (List.length l).
Proof.
  induction l as [ | x rest IH]; simpl; [ reflexivity | ].
  destruct (y_index x <=? y_index b)%Z; simpl; [ reflexivity | ].
  now rewrite IH.
Qed.

Lemma sort_index_desc_length (rows : list ybar) :
  List.length (sort_index_desc rows) = List.length rows.
Proof.
  induction rows as [ | b rest IH]; simpl; [ reflexivity | ].
  now rewrite insert_desc_length, IH.
Qed.

(** The primary fetch yields a frame only from a [values] array, and
    then one row per entry, coerced in place. *)
Lemma fetch_from_twelvedata_some (pair : string) (df : dataframe) :
  fst (fetch_from_twelvedata cfg w pair) = Some df ->
  TWELVEDATA_KEY cfg <> ""%string /\
  exists values, http_get w (td_url cfg pair) = TdValues values /\
                 df = map coerce_row values.
Proof.
  unfold fetch_from_twelvedata.
  destruct (String.eqb_spec (TWELVEDATA_KEY cfg) "") as [Hk | Hk];
    [ discriminate | ].
  cbn [fst]. unfold twelvedata_try.
  destruct (http_get w (td_url cfg pair)) as [e | | values];
    try discriminate.
  intros H. split; [ exact Hk | ]. exists values. split; [ reflexivity | ].
  destruct (column values "open"); [ | discriminate ].
  destruct (column values "high"); [ | discriminate ].
  destruct (column values "low"); [ | discriminate ].
  destruct (column values "close"); [ | discriminate ].
  cbn in H. now injection H as <-.
Qed.

Lemma column_present (values : list json_row) (col : string) :
  (exists r, In r values /\ lookup col r <> None) ->
  column values col = Ret (map (lookup col) values).
Proof.
  intros (r & Hin & Hr). unfold column.
  replace (existsb _ values) with true; [ reflexivity | ].
  symmetry. apply existsb_exists. exists r. split; [ exact Hin | ].
  destruct (lookup col r); [ reflexivity | contradiction ].
Qed.

Lemma column_absent (values : list json_row) (col : string) :
  (forall r, In r values -> lookup col r = None) ->
  column values col = Raise KeyError.
Proof.
  intros Hnone. unfold column.
  replace (existsb _ values) with false; [ reflexivity | ].
  symmetry. apply not_true_is_false. intros H.
  apply existsb_exists in H. destruct H as (r & Hin & Hr).
  now rewrite (Hnone r Hin) in Hr.
Qed.

(** [df[col]] either gives the column or raises [KeyError]. *)
Lemma column_cases (values : list json_row) (col : string) :
  column values col = Ret (map (lookup col) values) \/
  column values col = Raise KeyError.
Proof.
  unfold column. destruct (existsb _ values); [ now left | now right ].
Qed.

(** A frame of fewer than 60 rows, or none, leaves the scan's state as
    it was and lets the loop go on. *)
Lemma scan_pair_skips (risk reward : float) (pair : string) (st : state) :
  match fst (get_candle cfg w pair) with
  | None => True
  | Some df => (List.length df < 60)%nat
  end ->
  scan_pair cfg w risk reward pair st = Ret st.
Proof.
  unfold scan_pair. destruct (fst (get_candle cfg w pair)) as [df | ];
    [ | reflexivity ].
  intros Hlen. now rewrite analyze_pair_short.
Qed.

Lemma get_candle_primary (pair : string) (df : dataframe) :
  fst (fetch_from_twelvedata cfg w pair) = Some df ->
  get_candle cfg w pair = (Some df, [AskTwelveData (td_url cfg pair)]).
Proof.
  intros H. pose proof (fetch_from_twelvedata_some pair df H) as [Hk _].
  unfold get_candle. revert H. unfold fetch_from_twelvedata.
  destruct (String.eqb_spec (TWELVEDATA_KEY cfg) "") as [Hk' | _];
    [ contradiction | ].
  cbn [fst]. intros ->. reflexivity.
Qed.

Lemma get_candle_secondary (pair : string) :
  fst (fetch_from_twelvedata cfg w pair) = None ->
  fst (get_candle cfg w pair) = fst (fetch_from_yahoo w pair).
Proof.
  unfold get_candle.
  destruct (fetch_from_twelvedata cfg w pair) as [df asked]. cbn [fst].
  intros ->. reflexivity.
Qed.

End FetcherFacts.

(** C3, as the claim states it, fails for a series that is too short:
    with no primary key and a secondary table of two bars, the fetch hands
    back the two rows, newest first; it is [analyze_pair] that then
    declines them. *)
Lemma get_candle_returns_short_series :
  get_candle default_config (Replies.yahoo 0 Replies.two_bars) "EUR/USD" =
    (Some [ {| open := 1.375; high := 1.625; low := 1.25; close := 1.5 |};
            {| open := 1.25; high := 1.5; low := 1.125; close := 1.375 |} ],
     [AskYahoo "EURUSD=X"]) /\
  analyze_pair default_config
    (fst (get_candle default_config (Replies.yahoo 0 Replies.two_bars)
                     "EUR/USD")) = Ret None.
Proof.
  split; reflexivity.
Qed.

(** C3 (amended): for every pair the fetch returns None, and raises
    nothing, when both providers fail: the primary fails when no key is
    set, when the request raises, when the reply has no values, an empty
    array of them or rows that all lack a price column; the secondary
    when it raises, returns nothing or returns an empty table.  A table that is not empty is returned
    whatever its length; a frame of fewer than 60 rows gets no signal from
    [analyze_pair]; and in the scan a pair without a frame, or with such a
    short one, is skipped: the state is unchanged and the loop goes on. *)
Theorem get_candle_unavailable (cfg : config) (w : world) (pair : string) :
  (TWELVEDATA_KEY cfg = ""%string \/
   (exists e, http_get w (td_url cfg pair) = TdRaise e) \/
   http_get w (td_url cfg pair) = TdNoValues \/
   http_get w (td_url cfg pair) = TdValues [] \/
   (exists values col,
      http_get w (td_url cfg pair) = TdValues values /\
      In col ["open"; "high"; "low"; "close"]%string /\
      forall r, In r values -> lookup col r = None) ->
   fst (fetch_from_twelvedata cfg w pair) = None) /\
  (fst (fetch_from_twelvedata cfg w pair) = None ->
   (exists e, yf_history w (symbol_to_yahoo pair) = YRaise e) \/
   yf_history w (symbol_to_yahoo pair) = YNone \/
   yf_history w (symbol_to_yahoo pair) = YTable [] ->
   fst (get_candle cfg w pair) = None) /\
  (forall rows,
     fst (fetch_from_twelvedata cfg w pair) = None ->
     yf_history w (symbol_to_yahoo pair) = YTable rows -> rows <> [] ->
     exists df, fst (get_candle cfg w pair) = Some df /\
                List.length df = List.length rows) /\
  (forall df,
     fst (get_candle cfg w pair) = Some df -> (List.length df < 60)%nat ->
     analyze_pair cfg (Some df) = Ret None) /\
  (forall risk reward st,
     fst (get_candle cfg w pair) = None \/
     (exists df, fst (get_candle cfg w pair) = Some df /\
                 (List.length df < 60)%nat) ->
     scan_pair cfg w risk reward pair st = Ret st).
Proof.
  split; [ | split; [ | split; [ | split ] ] ].
  - unfold fetch_from_twelvedata.
    destruct (String.eqb_spec (TWELVEDATA_KEY cfg) "") as [Hk | Hk];
      [ reflexivity | ].
    cbn [fst]. unfold twelvedata_try.
    intros [H | [[e H] | [H | [H | (values & col & H & Hcol & Hnone)]]]];
      [ contradiction | now rewrite H | now rewrite H | now rewrite H | ].
    rewrite H.
    pose proof (column_absent values col Hnone) as Hraise.
    destruct (column_cases values "open") as [Ho | Ho];
      destruct (column_cases values "high") as [Hh | Hh];
      destruct (column_cases values "low") as [Hl | Hl];
      destruct (column_cases values "close") as [Hc | Hc];
      rewrite Ho, Hh, Hl, Hc; try reflexivity.
    simpl in Hcol.
    destruct Hcol as [<- | [<- | [<- | [<- | []]]]]; congruence.
  - intros Htd Hy. rewrite (get_candle_secondary cfg w pair Htd).
    unfold fetch_from_yahoo, yahoo_try. cbn [fst].
    destruct Hy as [[e H] | [H | H]]; now rewrite H.
  - intros rows Htd Hy Hrows. rewrite (get_candle_secondary cfg w pair Htd).
    unfold fetch_from_yahoo, yahoo_try. cbn [fst]. rewrite Hy.
    destruct rows as [ | b rest]; [ contradiction | ].
    eexists. split; [ reflexivity | ].
    now rewrite length_map, sort_index_desc_length.
  - intros df _ Hlen. now apply analyze_pair_short.
  - intros risk reward st H. apply scan_pair_skips.
    destruct H as [-> | (df & -> & Hlen)]; [ exact I | exact Hlen ].
Qed.

Lemma get_candle_unavailable_witness :
  fst (get_candle default_config (Worlds.silent 0 1) "EUR/USD") = None /\
  scan_pair default_config (Worlds.silent 0 1) 20 40 "EUR/USD"
            (Worlds.with_capital 1000) = Ret (Worlds.with_capital 1000).
Proof.
  pose proof (get_candle_unavailable
                default_config (Worlds.silent 0 1) "EUR/USD")
    as (Htd & Hboth & _ & _ & Hskip).
  assert (Hnone : fst (get_candle default_config (Worlds.silent 0 1)
                                  "EUR/USD") = None).
  { apply Hboth; [ apply Htd; left; reflexivity | right; left; reflexivity ]. }
  split; [ exact Hnone | ].
  apply Hskip. left. exact Hnone.
Defined.

(** C4, as the claim states it, fails on a primary reply of sixty rows:
    the code asks for 30 but keeps whatever arrives, so the frame has 60
    rows, only the primary is consulted, and the scan sends a signal
    message for the pair. *)
Lemma primary_frame_of_sixty_rows_signals :
  List.length Replies.sixty_rows = 60%nat /\
  get_candle Replies.keyed_config (Replies.twelvedata Replies.sixty_rows)
             "EUR/USD" =
    (Some (repeat {| open := 1.25; high := 1.5; low := 1.125;
                     close := 1.375 |} 60),
     [AskTwelveData {| td_symbol := "EUR%2FUSD"; td_interval := "1h";
                       td_outputsize := 30; td_apikey := "demo" |}]) /\
  scan_pair Replies.keyed_config (Replies.twelvedata Replies.sixty_rows)
            20 40 "EUR/USD" (Worlds.with_capital 1000) =
    Ret {| capital := 1000;
           outbox := [ SignalMsg "EUR/USD"
                         {| sig_direction := SELL; sig_entry := 1.375;
                            sig_sl := 1.75; sig_tp := 0.625;
                            sig_rng := 0.375; sig_rr_text := "2:1" |}
                         20 40 ];
           draws := 0 |}.
Proof.
  repeat split; vm_compute; reflexivity.
Qed.

(** C4 (amended): when the primary provider is configured and yields a
    frame, the request asked for 30 rows, the frame has one row per entry
    of the reply, whatever their number, and the fetch consults the
    primary alone and returns that frame.  If the frame has fewer than 60
    rows, as it has whenever the reply keeps to the size asked for,
    [analyze_pair] returns no signal and the scan sends nothing for the
    pair; if it has 60 rows or more and RR is finite, [analyze_pair]
    returns a signal and the scan sends its signal message. *)
Theorem primary_frame_signals_by_length
        (cfg : config) (w : world) (pair : string) (df : dataframe)
        (Husable : fst (fetch_from_twelvedata cfg w pair) = Some df) :
  TWELVEDATA_KEY cfg <> ""%string /\
  td_outputsize (td_url cfg pair) = 30%nat /\
  (exists values,
     http_get w (td_url cfg pair) = TdValues values /\
     List.length df = List.length values) /\
  get_candle cfg w pair = (Some df, [AskTwelveData (td_url cfg pair)]) /\
  ((List.length df <= td_outputsize (td_url cfg pair))%nat ->
   (List.length df < 60)%nat) /\
  ((List.length df < 60)%nat ->
   analyze_pair cfg (Some df) = Ret None /\
   forall risk reward st, scan_pair cfg w risk reward pair st = Ret st) /\
  ((60 <= List.length df)%nat ->
   forall n, Py.int (RR cfg) = Ret n ->
   exists s,
     analyze_pair cfg (Some df) = Ret (Some s) /\
     forall risk reward st,
     exists st' more,
       scan_pair cfg w risk reward pair st = Ret st' /\
       outbox st' = outbox st ++ SignalMsg pair s risk reward :: more).
Proof.
  destruct (fetch_from_twelvedata_some cfg w pair df Husable)
    as (Hkey & values & Hget & Hdf).
  pose proof (get_candle_primary cfg w pair _ Husable) as Hgc.
  split; [ exact Hkey | ].
  split; [ reflexivity | ].
  split; [ exists values; split; [ exact Hget | ];
           rewrite Hdf; apply length_map | ].
  split; [ exact Hgc | ].
  split; [ cbn [td_outputsize td_url]; lia | ].
  split.
  - intros Hlt. split; [ now apply analyze_pair_short | ].
    intros risk reward st. apply scan_pair_skips.
    rewrite Hgc. cbn [fst]. exact Hlt.
  - intros Hge n Hn. clear Hdf.
    destruct df as [ | row rest]; [ simpl in Hge; lia | ].
    assert (Han : exists s,
               analyze_pair cfg (Some (row :: rest)) = Ret (Some s)).
    { rewrite analyze_pair_accepted by exact Hge.
      rewrite (levels_ok cfg SELL _ _ n Hn). cbn. eexists; reflexivity. }
    destruct Han as [s Han]. exists s. split; [ exact Han | ].
    intros risk reward st.
    assert (Hscan : scan_pair cfg w risk reward pair st =
                    if DEMO_RESULT cfg then
                      Ret (send_result
                             pair
                             (Py.gt (random_random w (draws st)) 0.35)
                             (sig_entry s) (sig_sl s) (sig_tp s) risk reward
                             (next_draw
                                (send (SignalMsg pair s risk reward) st)))
                    else Ret (send (SignalMsg pair s risk reward) st)).
    { unfold scan_pair. rewrite Hgc. cbn [fst]. cbv beta iota zeta.
      unfold dataframe in *. rewrite Han. reflexivity. }
    rewrite Hscan. clear Hscan.
    destruct (DEMO_RESULT cfg).
    + unfold send_result.
      destruct (Py.gt (random_random w (draws st)) 0.35);
        do 2 eexists; (split; [ reflexivity | ]); cbn;
        now rewrite <- app_assoc.
    + do 2 eexists. split; reflexivity.
Qed.

Lemma primary_frame_signals_by_length_witness :
  get_candle Replies.keyed_config (Replies.twelvedata [Replies.good_row])
             "EUR/USD" =
    (Some [ {| open := 1.25; high := 1.5; low := 1.125; close := 1.375 |} ],
     [AskTwelveData {| td_symbol := "EUR%2FUSD"; td_interval := "1h";
                       td_outputsize := 30; td_apikey := "demo" |}]) /\
  scan_pair Replies.keyed_config (Replies.twelvedata [Replies.good_row])
            20 40 "EUR/USD" (Worlds.with_capital 1000)
    = Ret (Worlds.with_capital 1000).
Proof.
  pose proof (primary_frame_signals_by_length
                Replies.keyed_config (Replies.twelvedata [Replies.good_row])
                "EUR/USD" _ eq_refl)
    as (_ & _ & _ & Hgc & _ & Hshort & _).
  split; [ exact Hgc | ].
  assert (Hlt : (List.length
                   [ {| open := 1.25; high := 1.5; low := 1.125;
                        close := 1.375 |} ] < 60)%nat)
    by (cbn; lia).
  exact (proj2 (Hshort Hlt) 20%float 40%float (Worlds.with_capital 1000)).
Defined.

(** C5, as the claim states it, fails on a row whose close is the text
    "n/a": the frame the primary fetch returns still has both rows, the
    second with NaN for its close. *)
Lemma fetch_from_twelvedata_keeps_bad_row :
  fst (fetch_from_twelvedata
         Replies.keyed_config
         (Replies.twelvedata [Replies.good_row; Replies.bad_row])
         "EUR/USD") =
  Some [ {| open := 1.25; high := 1.5; low := 1.125; close := 1.375 |};
         {| open := 1.25; high := 1.5; low := 1.125; close := nan |} ].
Proof.
  reflexivity.
Qed.

(** C5 (amended): when the key is set and the reply's rows carry the four
    price columns, the primary fetch succeeds and returns one row per
    entry of the reply, in the same order; each OHLC field is the number
    its cell reads as, and NaN when the cell cannot be read or the row
    lacks it.  No row is removed and no cell makes the fetch fail. *)
Theorem fetch_from_twelvedata_coerces
        (cfg : config) (w : world) (pair : string) (values : list json_row)
        (Hkey : TWELVEDATA_KEY cfg <> ""%string)
        (Hget : http_get w (td_url cfg pair) = TdValues values)
        (Hcols : forall col,
            In col ["open"; "high"; "low"; "close"]%string ->
            exists r, In r values /\ lookup col r <> None) :
  exists df,
    fst (fetch_from_twelvedata cfg w pair) = Some df /\
    List.length df = List.length values /\
    (forall i r, nth_error values i = Some r ->
       exists c, nth_error df i = Some c /\
         open c = to_numeric (lookup "open" r) /\
         high c = to_numeric (lookup "high" r) /\
         low c = to_numeric (lookup "low" r) /\
         close c = to_numeric (lookup "close" r)) /\
    (forall x, to_numeric (Some (Numeric x)) = x) /\
    (forall s, to_numeric (Some (NonNumeric s)) = nan) /\
    to_numeric None = nan.
Proof.
  exists (map coerce_row values). split; [ | split; [ | split ] ].
  - unfold fetch_from_twelvedata.
    destruct (String.eqb_spec (TWELVEDATA_KEY cfg) "") as [Hk | _];
      [ contradiction | ].
    cbn [fst]. unfold twelvedata_try. rewrite Hget.
    rewrite !column_present by (apply Hcols; simpl; auto).
    reflexivity.
  - apply length_map.
  - intros i r Hi. exists (coerce_row r). split.
    + now rewrite nth_error_map, Hi.
    + repeat split.
  - repeat split.
Qed.

Lemma fetch_from_twelvedata_coerces_witness :
  exists df,
    fst (fetch_from_twelvedata
           Replies.keyed_config
           (Replies.twelvedata [Replies.good_row; Replies.bad_row])
           "EUR/USD") = Some df /\
    List.length df = 2%nat.
Proof.
  assert (Hkey : TWELVEDATA_KEY Replies.keyed_config <> ""%string)
    by discriminate.
  assert (Hcols : forall col,
             In col ["open"; "high"; "low"; "close"]%string ->
             exists r, In r [Replies.good_row; Replies.bad_row] /\
                       lookup col r <> None).
  { intros col Hin. exists Replies.good_row. split; [ left; reflexivity | ].
    simpl in Hin.
    destruct Hin as [<- | [<- | [<- | [<- | []]]]]; discriminate. }
  destruct (fetch_from_twelvedata_coerces
              Replies.keyed_config
              (Replies.twelvedata [Replies.good_row; Replies.bad_row])
              "EUR/USD" _ Hkey eq_refl Hcols) as (df & Hdf & Hlen & _).
  exists df. split; [ exact Hdf | exact Hlen ].
Defined.

(* ================================================================== *)
(** * The hourly scan and its weekday gate *)

Section ScanFacts.

Variable cfg : config.
Variable w : world.

Lemma count_app (f : message -> bool) (l1 l2 : list message) :
  count f (l1 ++ l2) = (count f l1 + count f l2)%nat.
Proof. unfold count. now rewrite filter_app, length_app. Qed.

Lemma analyze_pair_returns (df : option dataframe) (n : Z) :
  Py.int (RR cfg) = Ret n -> exists r, analyze_pair cfg df = Ret r.
Proof.
  intros Hn. destruct df as [[ | row rest] | ];
    try (eexists; reflexivity).
  destruct (Nat.ltb_spec (List.length (row :: rest)) 60) as [Hlt | Hge].
  - rewrite analyze_pair_short by exact Hlt. eexists; reflexivity.
  - rewrite analyze_pair_accepted by exact Hge.
    rewrite (levels_ok cfg SELL _ _ n Hn). eexists; reflexivity.
Qed.

(** One turn of the loop appends, for its own pair, one signal message
    and, in demo mode, one result message when fetch and analysis
    succeed, and nothing otherwise; it appends nothing about any other
    pair. *)
Lemma scan_pair_outbox (risk reward : float) (p : string) (st : state)
      (n : Z) :
  Py.int (RR cfg) = Ret n ->
  exists st' new,
    scan_pair cfg w risk reward p st = Ret st' /\
    outbox st' = outbox st ++ new /\
    forall q,
      count (is_signal_for q) new =
        (if String.eqb p q && produces cfg w p then 1 else 0)%nat /\
      count (is_result_for q) new =
        (if String.eqb p q && produces cfg w p && DEMO_RESULT cfg
         then 1 else 0)%nat.
Proof.
  intros Hn. unfold scan_pair, produces.
  destruct (fst (get_candle cfg w p)) as [df | ].
  2:{ exists st, []. rewrite app_nil_r.
      split; [ reflexivity | split; [ reflexivity | ] ].
      intros q. rewrite andb_false_r. split; reflexivity. }
  destruct (analyze_pair_returns (Some df) n Hn) as [[s | ] ->]; cbn [bind].
  2:{ exists st, []. rewrite app_nil_r.
      split; [ reflexivity | split; [ reflexivity | ] ].
      intros q. rewrite andb_false_r. split; reflexivity. }
  destruct (DEMO_RESULT cfg).
  - eexists.
    exists [SignalMsg p s risk reward;
            if Py.gt (random_random w (draws st)) 0.35
            then ResultMsg p true (sig_tp s) reward
                   (capital st + reward)%float
            else ResultMsg p false (sig_sl s) risk
                   (capital st - risk)%float].
    split; [ reflexivity | ]. split.
    + unfold send_result, Py.gt. cbn.
      destruct (_ <? _)%float; cbn; now rewrite <- app_assoc.
    + intros q. unfold count, Py.gt. rewrite !andb_true_r.
      destruct (_ <? _)%float; cbn;
        destruct (String.eqb p q); split; reflexivity.
  - exists (send (SignalMsg p s risk reward) st),
      [SignalMsg p s risk reward].
    split; [ reflexivity | ]. split; [ reflexivity | ].
    intros q. unfold count. cbn. rewrite andb_true_r, andb_false_r.
    destruct (String.eqb p q); split; reflexivity.
Qed.

(** The loop over a list of pairs: the messages add up turn by turn. *)
Lemma for_each_outbox (risk reward : float) (n : Z) (pairs : list string) :
  Py.int (RR cfg) = Ret n ->
  forall st, exists st' new,
    for_each (scan_pair cfg w risk reward) pairs st = Ret st' /\
    outbox st' = outbox st ++ new /\
    forall q,
      count (is_signal_for q) new =
        (if produces cfg w q then count_occ string_dec pairs q else 0)%nat /\
      count (is_result_for q) new =
        (if produces cfg w q && DEMO_RESULT cfg
         then count_occ string_dec pairs q else 0)%nat.
Proof.
  intros Hn. induction pairs as [ | p rest IH]; intros st.
  - exists st, []. rewrite app_nil_r. cbn.
    repeat split; now destruct (produces cfg w q), (DEMO_RESULT cfg).
  - destruct (scan_pair_outbox risk reward p st n Hn)
      as (st1 & new1 & Hscan & Hout1 & Hcount1).
    destruct (IH st1) as (st2 & new2 & Hloop & Hout2 & Hcount2).
    exists st2, (new1 ++ new2). cbn [for_each]. rewrite Hscan. cbn [bind].
    split; [ exact Hloop | ].
    split; [ now rewrite Hout2, Hout1, app_assoc | ].
    intros q. rewrite !count_app.
    destruct (Hcount1 q) as [-> ->], (Hcount2 q) as [-> ->].
    cbn [count_occ].
    destruct (string_dec p q) as [-> | Hne].
    + rewrite String.eqb_refl. cbn [andb].
      destruct (produces cfg w q), (DEMO_RESULT cfg); split; reflexivity.
    + apply String.eqb_neq in Hne. rewrite Hne. cbn [andb].
      split; reflexivity.
Qed.

(** In demo mode a turn that succeeds appends the signal message and,
    right after it, the result message of its pair. *)
Lemma scan_pair_demo (risk reward : float) (p : string) (st : state) (n : Z) :
  Py.int (RR cfg) = Ret n -> DEMO_RESULT cfg = true ->
  produces cfg w p = true ->
  exists st1 s win level amount balance,
    scan_pair cfg w risk reward p st = Ret st1 /\
    outbox st1 =
      outbox st ++ [SignalMsg p s risk reward;
                    ResultMsg p win level amount balance].
Proof.
  intros Hn Hdemo. unfold scan_pair, produces.
  destruct (fst (get_candle cfg w p)) as [df | ]; [ | discriminate ].
  destruct (analyze_pair cfg (Some df)) as [[s | ] | e]; try discriminate.
  intros _. cbn [bind]. rewrite Hdemo. unfold send_result, Py.gt.
  destruct (_ <? _)%float; cbn;
    do 6 eexists; (split; [ reflexivity | ]); cbn;
    now rewrite <- app_assoc.
Qed.

(** So does the whole loop, for every pair of its list that succeeds. *)
Lemma for_each_signal_then_result (risk reward : float) (n : Z)
      (pairs : list string) :
  Py.int (RR cfg) = Ret n -> DEMO_RESULT cfg = true ->
  forall st p, In p pairs -> produces cfg w p = true ->
  exists st' before after s win level amount balance,
    for_each (scan_pair cfg w risk reward) pairs st = Ret st' /\
    outbox st' =
      outbox st ++ before
        ++ SignalMsg p s risk reward
        :: ResultMsg p win level amount balance :: after.
Proof.
  intros Hn Hdemo. induction pairs as [ | q rest IH]; intros st p Hin Hp;
    [ destruct Hin | ].
  cbn [for_each]. destruct Hin as [-> | Hin].
  - destruct (scan_pair_demo risk reward p st n Hn Hdemo Hp)
      as (st1 & s & win & level & amount & balance & Hscan & Hout1).
    destruct (for_each_outbox risk reward n rest Hn st1)
      as (st' & after & Hloop & Hout & _).
    exists st', [], after, s, win, level, amount, balance.
    rewrite Hscan. cbn [bind]. split; [ exact Hloop | ].
    rewrite Hout, Hout1, <- app_assoc. reflexivity.
  - destruct (scan_pair_outbox risk reward q st n Hn)
      as (st1 & new1 & Hscan & Hout1 & _).
    destruct (IH st1 p Hin Hp)
      as (st' & before & after & s & win & level & amount & balance
          & Hloop & Hout).
    exists st', (new1 ++ before), after, s, win, level, amount, balance.
    rewrite Hscan. cbn [bind]. split; [ exact Hloop | ].
    rewrite Hout, Hout1, <- !app_assoc. reflexivity.
Qed.

End ScanFacts.

Lemma produces_finite_RR (cfg : config) (w : world) (p : string) :
  produces cfg w p = true -> exists n, Py.int (RR cfg) = Ret n.
Proof.
  unfold produces. destruct (fst (get_candle cfg w p)) as [df | ];
    [ | discriminate ].
  destruct (Py.int (RR cfg)) as [n | e] eqn:Hn; [ now exists n | ].
  destruct df as [ | row rest]; [ discriminate | ].
  destruct (Nat.ltb_spec (List.length (row :: rest)) 60) as [Hlt | Hge].
  - now rewrite analyze_pair_short by exact Hlt.
  - rewrite analyze_pair_accepted by exact Hge.
    now rewrite (levels_raise cfg SELL _ _ e Hn).
Qed.

(** C10, as the claim states it, fails in demo mode: on a Monday, with
    sixty candles for each pair, the scan sends two messages per pair,
    the signal and the simulated result. *)
Lemma signal_scan_demo_sends_two_per_pair :
  weekday (Replies.yahoo 0 Replies.rising_bars) = 0%Z /\
  produces Demo.config_on (Replies.yahoo 0 Replies.rising_bars) "EUR/USD"
    = true /\
  signal_scan Demo.config_on (Replies.yahoo 0 Replies.rising_bars)
              (Worlds.with_capital 1000) =
  Ret {| capital := 1080;
         outbox := [ SignalMsg "EUR/USD" Demo.rising_signal 20 40;
                     ResultMsg "EUR/USD" true 1.90625 40 1040;
                     SignalMsg "GBP/USD" Demo.rising_signal 20 40;
                     ResultMsg "GBP/USD" true 1.90625 40 1080 ];
         draws := 2 |}.
Proof.
  repeat split; vm_compute; reflexivity.
Qed.

(** C10 (amended): on a Friday, Saturday or Sunday (weekdays 4, 5, 6,
    Monday being 0) a scan leaves the state as it was, so it sends no
    message, whatever the providers would return.  On any other weekday,
    for every pair of the list whose fetch and analysis succeed, the scan
    completes and sends exactly one signal message for that pair; when
    the demo toggle is on that signal message is followed, as the very
    next message, by the one result message for the pair, and when it is
    off no result message is sent for it. *)
Theorem signal_scan_weekday_gate (cfg : config) (w : world) (st : state) :
  (weekday w = 4%Z \/ weekday w = 5%Z \/ weekday w = 6%Z ->
   signal_scan cfg w st = Ret st) /\
  (weekday w <> 4%Z /\ weekday w <> 5%Z /\ weekday w <> 6%Z ->
   forall p, In p PAIR_LIST -> produces cfg w p = true ->
   exists st' new,
     signal_scan cfg w st = Ret st' /\
     outbox st' = outbox st ++ new /\
     count (is_signal_for p) new = 1%nat /\
     count (is_result_for p) new = (if DEMO_RESULT cfg then 1 else 0)%nat /\
     (DEMO_RESULT cfg = true ->
      exists before after s risk reward win level amount balance,
        new = before
                ++ SignalMsg p s risk reward
                :: ResultMsg p win level amount balance :: after)).
Proof.
  unfold signal_scan, is_weekend_off. cbn [existsb]. split.
  - intros [-> | [-> | ->]]; reflexivity.
  - intros (H4 & H5 & H6) p Hin Hp.
    apply Z.eqb_neq in H4, H5, H6. rewrite H4, H5, H6. cbn [orb].
    destruct (produces_finite_RR cfg w p Hp) as [n Hn].
    destruct (for_each_outbox
                cfg w
                (Py.round2 (capital st * (RISK_PERCENT cfg / 100)))
                (Py.round2
                   (Py.round2 (capital st * (RISK_PERCENT cfg / 100))
                    * RR cfg))
                n PAIR_LIST Hn st)
      as (st' & new & Hrun & Hout & Hcount).
    exists st', new. split; [ exact Hrun | ]. split; [ exact Hout | ].
    destruct (Hcount p) as [-> ->]. rewrite Hp. cbn [andb].
    assert (Hocc : count_occ string_dec PAIR_LIST p = 1%nat).
    { destruct Hin as [<- | [<- | []]]; reflexivity. }
    rewrite Hocc. split; [ reflexivity | ]. split; [ reflexivity | ].
    intros Hdemo.
    destruct (for_each_signal_then_result
                cfg w
                (Py.round2 (capital st * (RISK_PERCENT cfg / 100)))
                (Py.round2
                   (Py.round2 (capital st * (RISK_PERCENT cfg / 100))
                    * RR cfg))
                n PAIR_LIST Hn Hdemo st p Hin Hp)
      as (st2 & before & after & s & win & level & amount & balance
          & Hrun2 & Hout2).
    rewrite Hrun in Hrun2. injection Hrun2 as <-.
    rewrite Hout in Hout2. apply app_inv_head in Hout2.
    exists before, after, s. do 2 eexists.
    exists win, level, amount, balance. exact Hout2.
Qed.

(** A Friday in demo mode: nothing is sent.  A Monday in demo mode: the
    signal for GBP/USD and, next, its result. *)
Lemma signal_scan_weekday_gate_witness :
  signal_scan Demo.config_on (Replies.yahoo 4 Replies.rising_bars)
              (Worlds.with_capital 1000) = Ret (Worlds.with_capital 1000) /\
  exists st' new,
    signal_scan Demo.config_on (Replies.yahoo 0 Replies.rising_bars)
                (Worlds.with_capital 1000) = Ret st' /\
    outbox st' = new /\
    count (is_signal_for "GBP/USD") new = 1%nat /\
    count (is_result_for "GBP/USD") new = 1%nat /\
    exists before after s risk reward win level amount balance,
      new = before
              ++ SignalMsg "GBP/USD" s risk reward
              :: ResultMsg "GBP/USD" win level amount balance :: after.
Proof.
  split.
  - apply (signal_scan_weekday_gate
             Demo.config_on (Replies.yahoo 4 Replies.rising_bars)
             (Worlds.with_capital 1000)).
    left. reflexivity.
  - assert (Hday : weekday (Replies.yahoo 0 Replies.rising_bars) <> 4%Z /\
                   weekday (Replies.yahoo 0 Replies.rising_bars) <> 5%Z /\
                   weekday (Replies.yahoo 0 Replies.rising_bars) <> 6%Z)
      by (repeat split; discriminate).
    assert (Hin : In "GBP/USD"%string PAIR_LIST)
      by (right; left; reflexivity).
    assert (Hp : produces Demo.config_on
                          (Replies.yahoo 0 Replies.rising_bars)
                          "GBP/USD" = true)
      by (vm_compute; reflexivity).
    destruct (proj2 (signal_scan_weekday_gate
                       Demo.config_on (Replies.yahoo 0 Replies.rising_bars)
                       (Worlds.with_capital 1000))
                    Hday "GBP/USD"%string Hin Hp)
      as (st' & new & Hrun & Hout & Hsig & Hres & Hnext).
    exists st', new. split; [ exact Hrun | ]. split; [ exact Hout | ].
    split; [ exact Hsig | ]. split; [ exact Hres | ].
    apply Hnext. reflexivity.
Defined.

(* ================================================================== *)
(** * Further properties: symbols *)

Lemma no_slash_app (s t : string) :
  no_slash (s ++ t) = no_slash s && no_slash t.
Proof.
  induction s as [ | c s IH]; simpl; [ reflexivity | ].
  now rewrite IH, andb_assoc.
Qed.

Lemma replace_slash_no_slash (by_ s : string) :
  no_slash by_ = true -> no_slash (replace_slash by_ s) = true.
Proof.
  intros Hby. induction s as [ | c s IH]; simpl; [ reflexivity | ].
  destruct (Ascii.eqb c "/") eqn:E.
  - now rewrite no_slash_app, Hby, IH.
  - simpl. now rewrite E, IH.
Qed.

Lemma replace_slash_without_slash (by_ s : string) :
  no_slash s = true -> replace_slash by_ s = s.
Proof.
  induction s as [ | c s IH]; simpl; [ reflexivity | ].
  destruct (Ascii.eqb c "/"); simpl; [ discriminate | ].
  intros H. now rewrite IH.
Qed.

(** X1: whatever the pair is, no slash is left in the Yahoo ticker or in
    the symbol of the TwelveData request; and a pair that has no slash
    to begin with goes through unchanged (with "=X" appended for Yahoo). *)
Theorem symbols_have_no_slash (cfg : config) (pair : string) :
  no_slash (symbol_to_yahoo pair) = true /\
  no_slash (td_symbol (td_url cfg pair)) = true /\
  (if no_slash pair
   then symbol_to_yahoo pair = (pair ++ "=X")%string /\
        td_symbol (td_url cfg pair) = pair
   else symbol_to_yahoo pair <> (pair ++ "=X")%string).
Proof.
  split; [ | split ].
  - unfold symbol_to_yahoo. rewrite no_slash_app.
    now rewrite replace_slash_no_slash.
  - cbn [td_url td_symbol]. now apply replace_slash_no_slash.
  - destruct (no_slash pair) eqn:E.
    + unfold symbol_to_yahoo. cbn [td_url td_symbol].
      now rewrite !replace_slash_without_slash.
    + intros H.
      assert (Hn : no_slash (symbol_to_yahoo pair) = true).
      { unfold symbol_to_yahoo. rewrite no_slash_app.
        now rewrite replace_slash_no_slash. }
      rewrite H, no_slash_app, E in Hn. discriminate.
Qed.

(* ================================================================== *)
(** * Further properties: the signal engine *)

Lemma int_raises_ValueError (x : float) :
  Py.int x = Raise ValueError <-> x = nan.
Proof.
  split.
  - unfold Py.int. intros H. rewrite <- (SF2Prim_Prim2SF x).
    destruct (Prim2SF x); try discriminate. reflexivity.
  - intros ->. reflexivity.
Qed.

Lemma int_raises_OverflowError (x : float) :
  Py.int x = Raise OverflowError <-> x = infinity \/ x = neg_infinity.
Proof.
  split.
  - unfold Py.int. intros H. rewrite <- (SF2Prim_Prim2SF x).
    destruct (Prim2SF x) as [s | s | | s m e]; try discriminate.
    destruct s; [ right | left ]; reflexivity.
  - intros [-> | ->]; reflexivity.
Qed.

Lemma int_raises_cases (x : float) (e : exn) :
  Py.int x = Raise e -> e = ValueError \/ e = OverflowError.
Proof.
  unfold Py.int. destruct (Prim2SF x); try discriminate;
    intros H; injection H as <-; auto.
Qed.

(** X2: [analyze_pair] returns no signal exactly when it is given no
    frame or a frame of fewer than 60 rows, whatever the rows hold and
    whatever the configuration is; on 60 rows or more it never does. *)
Theorem analyze_pair_no_signal_iff (cfg : config) (df : option dataframe) :
  analyze_pair cfg df = Ret None <->
  df = None \/ exists d, df = Some d /\ (List.length d < 60)%nat.
Proof.
  split.
  - destruct df as [d | ]; [ | now left ]. intros H. right.
    exists d. split; [ reflexivity | ].
    destruct (Nat.ltb_spec (List.length d) 60) as [Hlt | Hge];
      [ exact Hlt | exfalso ].
    destruct d as [ | row rest]; [ simpl in Hge; lia | ].
    rewrite analyze_pair_accepted in H by exact Hge.
    destruct (Py.int (RR cfg)) as [n | e] eqn:Hn.
    + rewrite (levels_ok cfg SELL _ _ n Hn) in H. discriminate.
    + rewrite (levels_raise cfg SELL _ _ e Hn) in H. discriminate.
  - intros [-> | (d & -> & Hlt)]; [ reflexivity | ].
    now apply analyze_pair_short.
Qed.

(** X3: [analyze_pair] raises exactly when the frame has 60 rows or more
    and RR is not a finite number: [ValueError] for NaN, [OverflowError]
    for an infinity.  No frame, however malformed its prices, makes it
    raise under a finite RR. *)
Theorem analyze_pair_raises_iff
        (cfg : config) (df : option dataframe) (e : exn) :
  analyze_pair cfg df = Raise e <->
  (exists d, df = Some d /\ (60 <= List.length d)%nat) /\
  ((RR cfg = nan /\ e = ValueError) \/
   ((RR cfg = infinity \/ RR cfg = neg_infinity) /\ e = OverflowError)).
Proof.
  assert (Hint : Py.int (RR cfg) = Raise e <->
                 (RR cfg = nan /\ e = ValueError) \/
                 ((RR cfg = infinity \/ RR cfg = neg_infinity) /\
                  e = OverflowError)).
  { split.
    - intros H. destruct (int_raises_cases _ _ H) as [-> | ->].
      + left. split; [ now apply int_raises_ValueError | reflexivity ].
      + right. split; [ now apply int_raises_OverflowError | reflexivity ].
    - intros [[H ->] | [H ->]].
      + now apply int_raises_ValueError.
      + now apply int_raises_OverflowError. }
  rewrite <- Hint. clear Hint. split.
  - destruct df as [d | ]; [ | discriminate ]. intros H.
    destruct (Nat.ltb_spec (List.length d) 60) as [Hlt | Hge].
    { rewrite analyze_pair_short in H by exact Hlt. discriminate. }
    split; [ now exists d | ].
    destruct d as [ | row rest]; [ simpl in Hge; lia | ].
    rewrite analyze_pair_accepted in H by exact Hge.
    destruct (Py.int (RR cfg)) as [n | e'] eqn:Hn.
    + rewrite (levels_ok cfg SELL _ _ n Hn) in H. discriminate.
    + rewrite (levels_raise cfg SELL _ _ e' Hn) in H. cbn in H.
      now injection H as <-.
  - intros [(d & -> & Hge) Hn].
    destruct d as [ | row rest]; [ simpl in Hge; lia | ].
    rewrite analyze_pair_accepted by exact Hge.
    now rewrite (levels_raise cfg SELL _ _ e Hn).
Qed.

(** X4: the answer of [analyze_pair] depends on the latest candle alone:
    two accepted frames that agree on the high, low and close of row 0
    get the same answer, whatever their other rows hold. *)
Theorem analyze_pair_reads_row0_only
        (cfg : config) (row1 row2 : Candle) (rest1 rest2 : list Candle)
        (H1 : (60 <= List.length (row1 :: rest1))%nat)
        (H2 : (60 <= List.length (row2 :: rest2))%nat)
        (Hhigh : high row1 = high row2) (Hlow : low row1 = low row2)
        (Hclose : close row1 = close row2) :
  analyze_pair cfg (Some (row1 :: rest1)) =
  analyze_pair cfg (Some (row2 :: rest2)).
Proof.
  rewrite !analyze_pair_accepted by assumption.
  now rewrite Hhigh, Hlow, Hclose.
Qed.

Lemma analyze_pair_reads_row0_only_witness :
  analyze_pair default_config (Some Samples.rising60) =
  analyze_pair default_config
    (Some (Samples.rising_candle 0 :: repeat Samples.flat_candle 59)).
Proof.
  assert (H1 : (60 <= List.length
                       (Samples.rising_candle 0
                        :: map Samples.rising_candle (seq 1 59)))%nat)
    by (apply Nat.leb_le; reflexivity).
  assert (H2 : (60 <= List.length
                       (Samples.rising_candle 0
                        :: repeat Samples.flat_candle 59))%nat)
    by (apply Nat.leb_le; reflexivity).
  exact (analyze_pair_reads_row0_only
           default_config _ _ _ _ H1 H2 eq_refl eq_refl eq_refl).
Defined.

(* ================================================================== *)
(** * Further properties: the candle source *)

Lemma insert_desc_perm (b : ybar) (l : list ybar) :
  Permutation (b :: l) (insert_desc b l).
Proof.
  induction l as [ | x rest IH]; simpl; [ apply Permutation_refl | ].
  destruct (y_index x <=? y_index b)%Z; [ apply Permutation_refl | ].
  eapply perm_trans; [ apply perm_swap | ]. now apply perm_skip.
Qed.

Lemma sort_index_desc_perm (rows : list ybar) :
  Permutation rows (sort_index_desc rows).
Proof.
  induction rows as [ | b rest IH]; simpl; [ apply perm_nil | ].
  eapply perm_trans; [ apply perm_skip, IH | apply insert_desc_perm ].
Qed.

Lemma insert_desc_sorted (b : ybar) (l : list ybar) :
  newest_first l -> newest_first (insert_desc b l).
Proof.
  unfold newest_first. induction l as [ | x rest IH]; intros Hs; simpl.
  - constructor; constructor.
  - apply StronglySorted_inv in Hs. destruct Hs as [Hrest Hx].
    destruct (Z.leb_spec (y_index x) (y_index b)) as [Hle | Hgt].
    + constructor.
      * now constructor.
      * constructor; [ exact Hle | ].
        eapply Forall_impl; [ | exact Hx ]. cbn. intros a Ha. lia.
    + constructor; [ now apply IH | ].
      eapply Permutation_Forall; [ apply insert_desc_perm | ].
      constructor; [ lia | exact Hx ].
Qed.

Lemma sort_index_desc_sorted (rows : list ybar) :
  newest_first (sort_index_desc rows).
Proof.
  induction rows as [ | b rest IH]; simpl.
  - constructor.
  - now apply insert_desc_sorted.
Qed.

(** X5: from a table that is not empty the secondary fetch builds a frame
    with the same bars, one row each, ordered newest first; so row 0 is a
    bar no other bar of the table is more recent than.  The provider is
    asked once, for the pair's ticker. *)
Theorem fetch_from_yahoo_newest_first
        (w : world) (pair : string) (rows : list ybar)
        (Hy : yf_history w (symbol_to_yahoo pair) = YTable rows)
        (Hne : rows <> []) :
  exists first rest,
    fetch_from_yahoo w pair =
      (Some (map candle_of_bar (first :: rest)),
       [AskYahoo (symbol_to_yahoo pair)]) /\
    Permutation rows (first :: rest) /\
    newest_first (first :: rest) /\
    (forall b, In b rows -> (y_index b <= y_index first)%Z).
Proof.
  pose proof (sort_index_desc_perm rows) as Hperm.
  pose proof (sort_index_desc_sorted rows) as Hsorted.
  assert (Hfetch : fetch_from_yahoo w pair =
                   (Some (map candle_of_bar (sort_index_desc rows)),
                    [AskYahoo (symbol_to_yahoo pair)])).
  { unfold fetch_from_yahoo, yahoo_try. rewrite Hy.
    destruct rows; [ contradiction | reflexivity ]. }
  destruct (sort_index_desc rows) as [ | first rest] eqn:E.
  { apply Permutation_sym, Permutation_nil in Hperm. contradiction. }
  exists first, rest. repeat split; try assumption.
  intros b Hb. apply (Permutation_in _ Hperm) in Hb.
  destruct Hb as [<- | Hb]; [ lia | ].
  apply StronglySorted_inv in Hsorted. destruct Hsorted as [_ Hall].
  rewrite Forall_forall in Hall. now apply Hall.
Qed.

Lemma fetch_from_yahoo_newest_first_witness :
  exists first rest,
    fetch_from_yahoo (Replies.yahoo 0 Replies.two_bars) "EUR/USD" =
      (Some (map candle_of_bar (first :: rest)), [AskYahoo "EURUSD=X"]) /\
    newest_first (first :: rest) /\
    (forall b, In b Replies.two_bars -> (y_index b <= y_index first)%Z).
Proof.
  assert (Hne : Replies.two_bars <> []) by discriminate.
  destruct (fetch_from_yahoo_newest_first
              (Replies.yahoo 0 Replies.two_bars) "EUR/USD"
              Replies.two_bars eq_refl Hne)
    as (first & rest & Hfetch & _ & Hsorted & Hmax).
  exists first, rest. split; [ exact Hfetch | ].
  split; [ exact Hsorted | exact Hmax ].
Defined.

Lemma column_ret_not_empty (values : list json_row) (col : string)
      (cells : list (option cell)) :
  column values col = Ret cells -> values <> [].
Proof.
  intros H ->. rewrite (column_absent [] col) in H; [ discriminate | ].
  intros r [].
Qed.

(** The primary fetch succeeds exactly on a reply whose rows carry the
    four price columns. *)
Lemma fetch_from_twelvedata_some_iff
      (cfg : config) (w : world) (pair : string) (df : dataframe) :
  fst (fetch_from_twelvedata cfg w pair) = Some df <->
  TWELVEDATA_KEY cfg <> ""%string /\
  exists values,
    http_get w (td_url cfg pair) = TdValues values /\
    (forall col, In col ["open"; "high"; "low"; "close"]%string ->
                 exists r, In r values /\ lookup col r <> None) /\
    df = map coerce_row values.
Proof.
  split.
  - intros H.
    destruct (fetch_from_twelvedata_some cfg w pair df H)
      as (Hkey & values & Hget & ->).
    split; [ exact Hkey | ]. exists values.
    split; [ exact Hget | ]. split; [ | reflexivity ].
    revert H. unfold fetch_from_twelvedata.
    destruct (String.eqb_spec (TWELVEDATA_KEY cfg) "") as [Hk | _];
      [ contradiction | ].
    cbn [fst]. unfold twelvedata_try. rewrite Hget.
    assert (Hpresent : forall col,
               column values col <> Raise KeyError ->
               exists r, In r values /\ lookup col r <> None).
    { intros col Hcol. unfold column in Hcol.
      destruct (existsb _ values) eqn:E; [ | contradiction ].
      apply existsb_exists in E. destruct E as (r & Hin & Hr).
      exists r. split; [ exact Hin | ].
      destruct (lookup col r); [ discriminate | discriminate ]. }
    destruct (column_cases values "open") as [Ho | Ho];
      destruct (column_cases values "high") as [Hh | Hh];
      destruct (column_cases values "low") as [Hl | Hl];
      destruct (column_cases values "close") as [Hc | Hc];
      rewrite Ho, Hh, Hl, Hc; try discriminate.
    intros _ col Hin. apply Hpresent. simpl in Hin.
    destruct Hin as [<- | [<- | [<- | [<- | []]]]]; congruence.
  - intros (Hkey & values & Hget & Hcols & ->).
    unfold fetch_from_twelvedata.
    destruct (String.eqb_spec (TWELVEDATA_KEY cfg) "") as [Hk | _];
      [ contradiction | ].
    cbn [fst]. unfold twelvedata_try. rewrite Hget.
    rewrite !column_present by (apply Hcols; simpl; auto).
    reflexivity.
Qed.

Lemma get_candle_some_cons
      (cfg : config) (w : world) (pair : string) (df : dataframe) :
  fst (get_candle cfg w pair) = Some df -> exists row rest, df = row :: rest.
Proof.
  intros Hdf.
  assert (Hlen : (0 < List.length df)%nat).
  { destruct (fst (fetch_from_twelvedata cfg w pair)) as [d | ] eqn:Htd.
    - rewrite (get_candle_primary cfg w pair d Htd) in Hdf.
      cbn [fst] in Hdf. injection Hdf as <-.
      apply fetch_from_twelvedata_some_iff in Htd.
      destruct Htd as (_ & values & _ & Hcols & ->).
      destruct (Hcols "open"%string) as (r & Hin & _); [ now left | ].
      rewrite length_map. destruct values; [ destruct Hin | simpl; lia ].
    - rewrite (get_candle_secondary cfg w pair Htd) in Hdf.
      unfold fetch_from_yahoo, yahoo_try in Hdf. cbn [fst] in Hdf.
      destruct (yf_history w (symbol_to_yahoo pair)) as [e | | rows];
        try discriminate.
      destruct rows as [ | b rest]; [ discriminate | ].
      cbn [try_except] in Hdf. injection Hdf as <-.
      rewrite length_map, insert_desc_length. lia. }
  destruct df as [ | row rest]; [ simpl in Hlen; lia | ].
  now exists row, rest.
Qed.

(** X6: a frame [get_candle] returns is never empty: it has a row 0,
    whichever provider it comes from. *)
Theorem get_candle_frame_has_row0
        (cfg : config) (w : world) (pair : string) (df : dataframe)
        (Hdf : fst (get_candle cfg w pair) = Some df) :
  exists row rest, df = row :: rest /\ (0 < List.length df)%nat.
Proof.
  destruct (get_candle_some_cons cfg w pair df Hdf) as (row & rest & ->).
  exists row, rest. split; [ reflexivity | simpl; lia ].
Qed.

Lemma get_candle_frame_has_row0_witness :
  exists row rest,
    fst (get_candle default_config (Replies.yahoo 0 Replies.two_bars)
                    "EUR/USD") = Some (row :: rest).
Proof.
  destruct (get_candle_frame_has_row0
              default_config (Replies.yahoo 0 Replies.two_bars) "EUR/USD"
              _ eq_refl) as (row & rest & H & _).
  exists row, rest. rewrite <- H. reflexivity.
Defined.

(** X7: the provider calls of one fetch.  TwelveData is asked exactly
    when a key is set, for the pair with its slash escaped, hourly
    candles, 30 rows and that key; Yahoo is asked, after it, exactly when
    the primary gave no frame.  The fetch comes back empty-handed exactly
    when the primary gave no frame and the secondary raised, returned
    nothing or returned an empty table. *)
Theorem get_candle_queries (cfg : config) (w : world) (pair : string) :
  snd (get_candle cfg w pair) =
    (if String.eqb (TWELVEDATA_KEY cfg) "" then []
     else [AskTwelveData {| td_symbol := replace_slash "%2F" pair;
                            td_interval := "1h";
                            td_outputsize := 30;
                            td_apikey := TWELVEDATA_KEY cfg |}])
    ++ (match fst (fetch_from_twelvedata cfg w pair) with
        | Some _ => []
        | None => [AskYahoo (symbol_to_yahoo pair)]
        end) /\
  (fst (get_candle cfg w pair) = None <->
   fst (fetch_from_twelvedata cfg w pair) = None /\
   match yf_history w (symbol_to_yahoo pair) with
   | YRaise _ | YNone | YTable [] => True
   | YTable (_ :: _) => False
   end).
Proof.
  split.
  - unfold get_candle, fetch_from_twelvedata, fetch_from_yahoo.
    destruct (String.eqb (TWELVEDATA_KEY cfg) ""); cbn [fst snd];
      [ reflexivity | ].
    destruct (try_except (twelvedata_try cfg w pair) (fun _ => None));
      reflexivity.
  - destruct (fst (fetch_from_twelvedata cfg w pair)) as [d | ] eqn:Htd.
    + rewrite (get_candle_primary cfg w pair d Htd). cbn [fst].
      split; [ discriminate | intros [H _]; discriminate ].
    + rewrite (get_candle_secondary cfg w pair Htd).
      unfold fetch_from_yahoo, yahoo_try. cbn [fst].
      destruct (yf_history w (symbol_to_yahoo pair)) as [e | | [ | b rest]];
        cbn [try_except]; split; auto; try discriminate.
      intros [_ []].
Qed.

(** X8: the primary fetch returns a frame exactly when a key is set, the
    reply carries a values array and each of the four price columns
    occurs in at least one of its rows; the frame is then the reply
    coerced row by row, and the query was the only provider call. *)
Theorem fetch_from_twelvedata_succeeds_iff
        (cfg : config) (w : world) (pair : string) (df : dataframe) :
  fetch_from_twelvedata cfg w pair
    = (Some df, [AskTwelveData (td_url cfg pair)]) <->
  TWELVEDATA_KEY cfg <> ""%string /\
  exists values,
    http_get w (td_url cfg pair) = TdValues values /\
    (forall col, In col ["open"; "high"; "low"; "close"]%string ->
                 exists r, In r values /\ lookup col r <> None) /\
    df = map coerce_row values.
Proof.
  rewrite <- fetch_from_twelvedata_some_iff. split.
  - now intros ->.
  - intros H. pose proof (get_candle_primary cfg w pair df H) as Hgc.
    unfold get_candle in Hgc.
    destruct (fetch_from_twelvedata cfg w pair) as [d asked].
    cbn [fst] in H. subst d. now injection Hgc as ->.
Qed.

(* ================================================================== *)
(** * Further properties: the jobs *)

Section JobFacts.

Variable cfg : config.
Variable w : world.

Lemma consistent_app (c c1 c2 : float) (l1 l2 : list message) :
  consistent c l1 c1 -> consistent c1 l2 c2 -> consistent c (l1 ++ l2) c2.
Proof.
  revert c. induction l1 as [ | m l1 IH]; intros c H1 H2.
  - simpl in H1. now subst c1.
  - destruct m; simpl in *; try now apply IH.
    destruct H1 as [Hb H1]. split; [ exact Hb | now apply IH ].
Qed.

(** What one turn of the loop leaves behind when it returns. *)
Lemma scan_pair_shape (risk reward : float) (p : string) (st st' : state) :
  scan_pair cfg w risk reward p st = Ret st' ->
  st' = st \/
  exists df s,
    fst (get_candle cfg w p) = Some df /\
    analyze_pair cfg (Some df) = Ret (Some s) /\
    ((DEMO_RESULT cfg = false /\
      st' = send (SignalMsg p s risk reward) st) \/
     (DEMO_RESULT cfg = true /\
      st' = send_result p (Py.gt (random_random w (draws st)) 0.35)
                        (sig_entry s) (sig_sl s) (sig_tp s) risk reward
                        (next_draw (send (SignalMsg p s risk reward) st)))).
Proof.
  unfold scan_pair.
  destruct (fst (get_candle cfg w p)) as [df | ] eqn:Hgc;
    [ | intros H; injection H as <-; now left ].
  destruct (analyze_pair cfg (Some df)) as [[s | ] | e] eqn:Han; cbn [bind];
    [ | intros H; injection H as <-; now left | discriminate ].
  intros H. right. exists df, s. split; [ reflexivity | ].
  split; [ exact Han | ].
  destruct (DEMO_RESULT cfg); injection H as <-; [ right | left ];
    split; reflexivity.
Qed.

(** A relation every returning turn establishes, and that is reflexive
    and transitive, holds across the whole loop. *)
Lemma for_each_chain (R : state -> state -> Prop)
      (body : string -> state -> result state) (pairs : list string) :
  (forall st, R st st) ->
  (forall a b c, R a b -> R b c -> R a c) ->
  (forall p st st', In p pairs -> body p st = Ret st' -> R st st') ->
  forall st st', for_each body pairs st = Ret st' -> R st st'.
Proof.
  intros Hrefl Htrans. induction pairs as [ | p rest IH];
    intros Hstep st st' H.
  - injection H as <-. apply Hrefl.
  - cbn [for_each] in H. destruct (body p st) as [st1 | e] eqn:E;
      [ | discriminate ].
    cbn [bind] in H. apply Htrans with st1.
    + apply (Hstep p); [ now left | exact E ].
    + apply IH; [ | exact H ].
      intros q a b Hq. apply Hstep. now right.
Qed.

(** The scan's own arguments to the loop. *)
Lemma signal_scan_running (st st' : state) :
  signal_scan cfg w st = Ret st' ->
  st' = st \/
  for_each (scan_pair cfg w
              (Py.round2 (capital st * (RISK_PERCENT cfg / 100)))
              (Py.round2 (Py.round2 (capital st * (RISK_PERCENT cfg / 100))
                          * RR cfg)))
           PAIR_LIST st = Ret st'.
Proof.
  unfold signal_scan. destruct (is_weekend_off w).
  - intros H. injection H as <-. now left.
  - intros H. now right.
Qed.

Lemma scan_pair_raises (risk reward : float) (p : string) (st : state)
      (e : exn) :
  Py.int (RR cfg) = Raise e ->
  scan_pair cfg w risk reward p st =
  if long_frame cfg w p then Raise e else Ret st.
Proof.
  intros He. unfold scan_pair, long_frame.
  destruct (fst (get_candle cfg w p)) as [df | ]; [ | reflexivity ].
  destruct (Nat.leb_spec 60 (List.length df)) as [Hge | Hlt].
  - destruct df as [ | row rest]; [ simpl in Hge; lia | ].
    rewrite analyze_pair_accepted by exact Hge.
    now rewrite (levels_raise cfg SELL _ _ e He).
  - now rewrite analyze_pair_short.
Qed.

Lemma for_each_raises (risk reward : float) (pairs : list string)
      (st : state) (e : exn) :
  Py.int (RR cfg) = Raise e ->
  for_each (scan_pair cfg w risk reward) pairs st =
  if existsb (long_frame cfg w) pairs then Raise e else Ret st.
Proof.
  intros He. induction pairs as [ | p rest IH]; [ reflexivity | ].
  cbn [for_each existsb]. rewrite (scan_pair_raises _ _ _ _ e He).
  destruct (long_frame cfg w p); [ reflexivity | ]. exact IH.
Qed.

Lemma heartbeat_lines (st : state) :
  last_heartbeat (heartbeat cfg w st) =
  Some (map (fun p => (p, match fst (get_candle cfg w p) with
                          | Some (row :: _) => Some (close row)
                          | _ => None
                          end)) PAIR_LIST).
Proof.
  unfold last_heartbeat, heartbeat, send. cbn [outbox].
  rewrite last_last.
  cbn [map PAIR_LIST].
  repeat (destruct (fst (get_candle cfg w _)) as [[ | ? ?] | ]);
    reflexivity.
Qed.

End JobFacts.

Lemma analyze_pair_some (cfg : config) (df : dataframe) (s : signal) :
  analyze_pair cfg (Some df) = Ret (Some s) ->
  exists row rest,
    df = row :: rest /\ (60 <= List.length df)%nat /\
    sig_entry s = close row /\
    sig_rng s = range_proxy (high row) (low row).
Proof.
  intros H.
  destruct (Nat.ltb_spec (List.length df) 60) as [Hlt | Hge].
  { rewrite analyze_pair_short in H by exact Hlt. discriminate. }
  destruct df as [ | row rest]; [ simpl in Hge; lia | ].
  exists row, rest. split; [ reflexivity | ]. split; [ exact Hge | ].
  rewrite analyze_pair_accepted in H by exact Hge.
  destruct (Py.int (RR cfg)) as [n | e] eqn:Hn.
  - rewrite (levels_ok cfg SELL _ _ n Hn) in H. cbn in H.
    injection H as <-. split; reflexivity.
  - rewrite (levels_raise cfg SELL _ _ e Hn) in H. discriminate.
Qed.

(** X9: the heartbeat sends one message, on any day of the week, with one
    line per pair of the list, in the list's order, and leaves the capital
    alone; a line carries a last close exactly when the fetch for its pair
    returns a frame, and it is then the close of row 0 of that frame. *)
Theorem heartbeat_reports_every_pair (cfg : config) (w : world) (st : state) :
  exists lines,
    heartbeat cfg w st = send (HeartbeatMsg lines) st /\
    capital (heartbeat cfg w st) = capital st /\
    map fst lines = PAIR_LIST /\
    forall p v, In (p, v) lines ->
      match v with
      | Some c => exists row rest,
                    fst (get_candle cfg w p) = Some (row :: rest) /\
                    c = close row
      | None => fst (get_candle cfg w p) = None
      end.
Proof.
  eexists. split; [ reflexivity | ]. split; [ reflexivity | ].
  split.
  { rewrite map_map. rewrite <- (map_id PAIR_LIST) at 2.
    apply map_ext. intros q.
    destruct (fst (get_candle cfg w q)) as [[ | ? ?] | ]; reflexivity. }
  intros p v Hin. apply in_map_iff in Hin. destruct Hin as (q & Hq & _).
  destruct (fst (get_candle cfg w q)) as [df | ] eqn:Hgc.
  - destruct (get_candle_some_cons cfg w q df Hgc) as (row & rest & ->).
    injection Hq as <- <-. exists row, rest. now split.
  - injection Hq as <- <-. exact Hgc.
Qed.

(** X10: whenever a scan returns, the messages it sent account for the
    capital: read in order from the capital the scan started with, every
    result message reports the balance its own amount leads to, and the
    last balance is the capital the scan ends with.  With the demo toggle
    off the capital and the random generator are left untouched. *)
Theorem signal_scan_ledger
        (cfg : config) (w : world) (st st' : state)
        (Hrun : signal_scan cfg w st = Ret st') :
  exists new,
    outbox st' = outbox st ++ new /\
    consistent (capital st) new (capital st') /\
    (if DEMO_RESULT cfg then True
     else capital st' = capital st /\ draws st' = draws st).
Proof.
  set (R := fun a b : state =>
              exists new,
                outbox b = outbox a ++ new /\
                consistent (capital a) new (capital b) /\
                (if DEMO_RESULT cfg then True
                 else capital b = capital a /\ draws b = draws a)).
  assert (Hrefl : forall a, R a a).
  { intros a. exists []. rewrite app_nil_r. repeat split.
    destruct (DEMO_RESULT cfg); auto. }
  assert (Htrans : forall a b c, R a b -> R b c -> R a c).
  { intros a b c (n1 & Ho1 & Hc1 & Hd1) (n2 & Ho2 & Hc2 & Hd2).
    exists (n1 ++ n2). split; [ now rewrite Ho2, Ho1, app_assoc | ].
    split; [ now apply consistent_app with (capital b) | ].
    destruct (DEMO_RESULT cfg); [ exact I | ].
    destruct Hd1 as [<- <-]. exact Hd2. }
  destruct (signal_scan_running cfg w st st' Hrun) as [-> | Hloop];
    [ apply Hrefl | ].
  apply (for_each_chain R _ PAIR_LIST Hrefl Htrans) in Hloop;
    [ exact Hloop | ].
  intros p a b _ Hstep.
  destruct (scan_pair_shape cfg w _ _ p a b Hstep)
    as [-> | (df & s & _ & _ & [[Hdemo ->] | [Hdemo ->]])];
    [ apply Hrefl | | ]; unfold R; rewrite Hdemo.
  - eexists [_]. repeat split.
  - unfold send_result.
    destruct (Py.gt (random_random w (draws a)) 0.35);
      eexists [_; _]; cbn; rewrite <- app_assoc; repeat split.
Qed.

Lemma signal_scan_ledger_witness :
  exists new,
    new = [ SignalMsg "EUR/USD" Demo.rising_signal 20 40;
            ResultMsg "EUR/USD" true 1.90625 40 1040;
            SignalMsg "GBP/USD" Demo.rising_signal 20 40;
            ResultMsg "GBP/USD" true 1.90625 40 1080 ] /\
    consistent 1000 new 1080.
Proof.
  destruct (signal_scan_ledger
              Demo.config_on (Replies.yahoo 0 Replies.rising_bars)
              (Worlds.with_capital 1000) _ eq_refl)
    as (new & Hout & Hcons & _).
  exists new. split; [ | exact Hcons ].
  symmetry. exact Hout.
Defined.

(** X11: one scan sizes every trade from the capital it starts with.
    Each signal message of a returning scan carries the risk
    [round(capital * (RISK_PERCENT / 100), 2)] and the reward
    [round(risk * RR, 2)] computed before the loop, and each result
    message moves the balance by that reward or that risk, also for the
    second pair after a result for the first has changed the capital. *)
Theorem signal_scan_sizes_from_start
        (cfg : config) (w : world) (st st' : state)
        (Hrun : signal_scan cfg w st = Ret st') :
  let risk := Py.round2 (capital st * (RISK_PERCENT cfg / 100)) in
  let reward := Py.round2 (risk * RR cfg) in
  exists new,
    outbox st' = outbox st ++ new /\ Forall (sized risk reward) new.
Proof.
  intros risk reward.
  set (R := fun a b : state =>
              exists new,
                outbox b = outbox a ++ new /\
                Forall (sized risk reward) new).
  assert (Hrefl : forall a, R a a).
  { intros a. exists []. rewrite app_nil_r. now split. }
  assert (Htrans : forall a b c, R a b -> R b c -> R a c).
  { intros a b c (n1 & Ho1 & Hf1) (n2 & Ho2 & Hf2).
    exists (n1 ++ n2). split; [ now rewrite Ho2, Ho1, app_assoc | ].
    apply Forall_app. now split. }
  destruct (signal_scan_running cfg w st st' Hrun) as [-> | Hloop];
    [ apply Hrefl | ].
  apply (for_each_chain R _ PAIR_LIST Hrefl Htrans) in Hloop;
    [ exact Hloop | ].
  intros p a b _ Hstep.
  destruct (scan_pair_shape cfg w _ _ p a b Hstep)
    as [-> | (df & s & _ & _ & [[_ ->] | [_ ->]])];
    [ apply Hrefl | | ]; unfold R.
  - eexists [_]. split; [ reflexivity | ].
    constructor; [ now split | constructor ].
  - unfold send_result.
    destruct (Py.gt (random_random w (draws a)) 0.35);
      eexists [_; _]; cbn; rewrite <- app_assoc;
      (split; [ reflexivity | ]);
      repeat constructor.
Qed.

Lemma signal_scan_sizes_from_start_witness :
  exists new,
    outbox (Worlds.with_capital 1000) ++ new =
      [ SignalMsg "EUR/USD" Demo.rising_signal 20 40;
        ResultMsg "EUR/USD" true 1.90625 40 1040;
        SignalMsg "GBP/USD" Demo.rising_signal 20 40;
        ResultMsg "GBP/USD" true 1.90625 40 1080 ] /\
    Forall (sized 20 40) new.
Proof.
  destruct (signal_scan_sizes_from_start
              Demo.config_on (Replies.yahoo 0 Replies.rising_bars)
              (Worlds.with_capital 1000) _ eq_refl)
    as (new & Hout & Hsized).
  exists new. split; [ symmetry; exact Hout | exact Hsized ].
Defined.

(** X12: the entry a signal message quotes is the last close the
    heartbeat reports for the same pair: every signal message of a
    returning scan is for a pair of the list and takes its entry and its
    range from row 0 of the frame fetched for that pair, and a heartbeat
    run in the same world lists that pair with that close. *)
Theorem signal_entry_is_heartbeat_close
        (cfg : config) (w : world) (st st' : state)
        (Hrun : signal_scan cfg w st = Ret st') :
  exists new lines,
    outbox st' = outbox st ++ new /\
    last_heartbeat (heartbeat cfg w st') = Some lines /\
    forall p s risk reward,
      In (SignalMsg p s risk reward) new ->
      from_latest cfg w (SignalMsg p s risk reward) /\
      In (p, Some (sig_entry s)) lines.
Proof.
  set (P := fun m : message =>
              from_latest cfg w m /\
              match m with
              | SignalMsg q _ _ _ => In q PAIR_LIST
              | _ => True
              end).
  set (R := fun a b : state =>
              exists new, outbox b = outbox a ++ new /\ Forall P new).
  assert (Hrefl : forall a, R a a).
  { intros a. exists []. rewrite app_nil_r. now split. }
  assert (Htrans : forall a b c, R a b -> R b c -> R a c).
  { intros a b c (n1 & Ho1 & Hf1) (n2 & Ho2 & Hf2).
    exists (n1 ++ n2). split; [ now rewrite Ho2, Ho1, app_assoc | ].
    apply Forall_app. now split. }
  assert (HR : R st st').
  { destruct (signal_scan_running cfg w st st' Hrun) as [-> | Hloop];
      [ apply Hrefl | ].
    apply (for_each_chain R _ PAIR_LIST Hrefl Htrans) in Hloop;
      [ exact Hloop | ].
    intros p a b Hp Hstep.
    destruct (scan_pair_shape cfg w _ _ p a b Hstep)
      as [-> | (df & s & Hgc & Han & Hshape)]; [ apply Hrefl | ].
    destruct (analyze_pair_some cfg df s Han)
      as (row & rest & -> & _ & Hentry & Hrng).
    assert (HP : P (SignalMsg p s
                      (Py.round2 (capital st * (RISK_PERCENT cfg / 100)))
                      (Py.round2
                         (Py.round2 (capital st * (RISK_PERCENT cfg / 100))
                          * RR cfg)))).
    { split; [ | exact Hp ]. exists row, rest. now repeat split. }
    destruct Hshape as [[_ ->] | [_ ->]]; unfold R.
    - eexists [_]. split; [ reflexivity | ].
      constructor; [ exact HP | constructor ].
    - unfold send_result.
      destruct (Py.gt (random_random w (draws a)) 0.35);
        eexists [_; _]; cbn; rewrite <- app_assoc;
        (split; [ reflexivity | ]);
        (constructor; [ exact HP | ]);
        (constructor; [ now split | constructor ]). }
  destruct HR as (new & Hout & HP).
  exists new. eexists. split; [ exact Hout | ].
  split; [ apply heartbeat_lines | ].
  intros p s risk reward Hin.
  rewrite Forall_forall in HP. destruct (HP _ Hin) as [Hlatest Hp].
  split; [ exact Hlatest | ].
  destruct Hlatest as (row & rest & Hgc & Hentry & _).
  apply in_map_iff. exists p. split; [ | exact Hp ].
  now rewrite Hgc, Hentry.
Qed.

Lemma signal_entry_is_heartbeat_close_witness :
  exists lines,
    last_heartbeat
      (heartbeat default_config (Replies.yahoo 0 Replies.rising_bars)
                 (Worlds.with_capital 1000)) = Some lines /\
    In ("GBP/USD"%string, Some 1.9375%float) lines.
Proof.
  destruct (signal_entry_is_heartbeat_close
              default_config (Replies.yahoo 0 Replies.rising_bars)
              (Worlds.with_capital 1000) _ eq_refl)
    as (new & lines & Hout & Hbeat & Hin).
  exists lines. split.
  - rewrite <- Hbeat. reflexivity.
  - apply (Hin "GBP/USD"%string Demo.rising_signal 20%float 40%float).
    cbn [outbox Worlds.with_capital app] in Hout. rewrite <- Hout.
    right. left. reflexivity.
Defined.

(** X13: the hourly scan raises exactly on a working day when RR is NaN
    or infinite and some pair of the list has a frame of 60 rows or more:
    the exception is the one [int(RR)] raises.  On an off day, with a
    finite RR, or while every frame is short or missing, it returns. *)
Theorem signal_scan_raises_iff
        (cfg : config) (w : world) (st : state) (e : exn) :
  signal_scan cfg w st = Raise e <->
  is_weekend_off w = false /\
  Py.int (RR cfg) = Raise e /\
  exists p df,
    In p PAIR_LIST /\ fst (get_candle cfg w p) = Some df /\
    (60 <= List.length df)%nat.
Proof.
  assert (Hlong : (exists p df,
                      In p PAIR_LIST /\ fst (get_candle cfg w p) = Some df /\
                      (60 <= List.length df)%nat) <->
                  existsb (long_frame cfg w) PAIR_LIST = true).
  { rewrite existsb_exists. unfold long_frame. split.
    - intros (p & df & Hp & Hgc & Hlen). exists p. split; [ exact Hp | ].
      rewrite Hgc. now apply Nat.leb_le.
    - intros (p & Hp & H). exists p.
      destruct (fst (get_candle cfg w p)) as [df | ]; [ | discriminate ].
      exists df. split; [ exact Hp | ]. split; [ reflexivity | ].
      now apply Nat.leb_le. }
  rewrite Hlong. clear Hlong. unfold signal_scan.
  destruct (is_weekend_off w).
  { split; [ discriminate | intros [H _]; discriminate ]. }
  destruct (Py.int (RR cfg)) as [n | e'] eqn:Hn.
  - destruct (for_each_outbox
                cfg w
                (Py.round2 (capital st * (RISK_PERCENT cfg / 100)))
                (Py.round2
                   (Py.round2 (capital st * (RISK_PERCENT cfg / 100))
                    * RR cfg))
                n PAIR_LIST Hn st) as (st' & new & -> & _).
    split; [ discriminate | intros (_ & H & _); discriminate ].
  - rewrite (for_each_raises cfg w _ _ PAIR_LIST st e' Hn).
    destruct (existsb (long_frame cfg w) PAIR_LIST).
    + split.
      * intros H. injection H as <-. now repeat split.
      * intros (_ & H & _). now injection H as <-.
    + split; [ discriminate | intros (_ & _ & H); discriminate ].
Qed.

(** X14: the morning announcement agrees with the scan's gate.  It sends
    one message: on weekdays 4, 5 and 6, the days on which a scan does
    nothing, the weekend-rest notice; on every other day the activation
    notice.  It never touches the capital. *)
Theorem morning_activation_matches_gate
        (cfg : config) (w : world) (st : state) :
  capital (morning_activation w st) = capital st /\
  (((weekday w = 4 \/ weekday w = 5 \/ weekday w = 6)%Z /\
    morning_activation w st = send WeekendRestMsg st /\
    signal_scan cfg w st = Ret st) \/
   ((weekday w <> 4 /\ weekday w <> 5 /\ weekday w <> 6)%Z /\
    morning_activation w st = send MorningMsg st)).
Proof.
  unfold morning_activation, signal_scan, is_weekend_off. cbn [existsb].
  destruct (Z.eqb_spec (weekday w) 4) as [H4 | H4];
    [ split; [ reflexivity | left; auto ] | ].
  destruct (Z.eqb_spec (weekday w) 5) as [H5 | H5];
    [ split; [ reflexivity | left; auto ] | ].
  destruct (Z.eqb_spec (weekday w) 6) as [H6 | H6];
    [ split; [ reflexivity | left; auto ] | ].
  split; [ reflexivity | right; auto ].
Qed.

Lemma pair_list_occurrences (q : string) :
  count_occ string_dec PAIR_LIST q =
  if existsb (String.eqb q) PAIR_LIST then 1%nat else 0%nat.
Proof.
  cbn [count_occ existsb PAIR_LIST].
  destruct (string_dec "EUR/USD" q) as [<- | H1]; [ reflexivity | ].
  destruct (string_dec "GBP/USD" q) as [<- | H2]; [ reflexivity | ].
  apply not_eq_sym in H1, H2. apply String.eqb_neq in H1, H2.
  now rewrite H1, H2.
Qed.

(** X15: the messages of a returning scan, pair by pair.  A pair gets
    one signal message when the day is a working day, the pair is on the
    list and its fetch and analysis succeed, and none otherwise; it gets
    one result message under the same conditions when the demo toggle is
    on, and none otherwise. *)
Theorem signal_scan_message_counts
        (cfg : config) (w : world) (st st' : state)
        (Hrun : signal_scan cfg w st = Ret st') :
  exists new,
    outbox st' = outbox st ++ new /\
    forall q,
      let sends := negb (is_weekend_off w)
                   && existsb (String.eqb q) PAIR_LIST
                   && produces cfg w q in
      count (is_signal_for q) new = (if sends then 1 else 0)%nat /\
      count (is_result_for q) new =
        (if sends && DEMO_RESULT cfg then 1 else 0)%nat.
Proof.
  unfold signal_scan in Hrun.
  destruct (is_weekend_off w).
  { injection Hrun as <-. exists []. rewrite app_nil_r.
    split; [ reflexivity | ]. intros q. split; reflexivity. }
  cbn [negb andb].
  destruct (Py.int (RR cfg)) as [n | e] eqn:Hn.
  - destruct (for_each_outbox
                cfg w
                (Py.round2 (capital st * (RISK_PERCENT cfg / 100)))
                (Py.round2
                   (Py.round2 (capital st * (RISK_PERCENT cfg / 100))
                    * RR cfg))
                n PAIR_LIST Hn st) as (st1 & new & Hloop & Hout & Hcount).
    rewrite Hloop in Hrun. injection Hrun as <-.
    exists new. split; [ exact Hout | ]. intros q.
    destruct (Hcount q) as [-> ->]. rewrite pair_list_occurrences.
    destruct (existsb (String.eqb q) PAIR_LIST), (produces cfg w q),
      (DEMO_RESULT cfg); split; reflexivity.
  - rewrite (for_each_raises cfg w _ _ PAIR_LIST st e Hn) in Hrun.
    destruct (existsb (long_frame cfg w) PAIR_LIST); [ discriminate | ].
    injection Hrun as <-. exists []. rewrite app_nil_r.
    split; [ reflexivity | ]. intros q.
    assert (Hp : produces cfg w q = false).
    { destruct (produces cfg w q) eqn:E; [ | reflexivity ].
      destruct (produces_finite_RR cfg w q E) as [n Hn']. congruence. }
    rewrite Hp, andb_false_r. split; reflexivity.
Qed.

Lemma signal_scan_message_counts_witness :
  exists new,
    outbox (Worlds.with_capital 1000) ++ new =
      [ SignalMsg "EUR/USD" Demo.rising_signal 20 40;
        SignalMsg "GBP/USD" Demo.rising_signal 20 40 ] /\
    count (is_signal_for "EUR/USD") new = 1%nat /\
    count (is_signal_for "USD/JPY") new = 0%nat /\
    count (is_result_for "EUR/USD") new = 0%nat.
Proof.
  destruct (signal_scan_message_counts
              default_config (Replies.yahoo 0 Replies.rising_bars)
              (Worlds.with_capital 1000) _ eq_refl)
    as (new & Hout & Hcount).
  exists new. split; [ symmetry; exact Hout | ].
  split; [ exact (proj1 (Hcount "EUR/USD"%string)) | ].
  split; [ exact (proj1 (Hcount "USD/JPY"%string)) | ].
  exact (proj2 (Hcount "EUR/USD"%string)).
Defined.

(** X16: when the primary gives no frame and the secondary's table leads
    to a signal, the signal quotes the most recent bar of the table: its
    entry is that bar's close and its range is taken from that bar's high
    and low; the table then has 60 bars or more. *)
Theorem yahoo_signal_quotes_latest_bar
        (cfg : config) (w : world) (pair : string) (rows : list ybar)
        (s : signal)
        (Htd : fst (fetch_from_twelvedata cfg w pair) = None)
        (Hy : yf_history w (symbol_to_yahoo pair) = YTable rows)
        (Hs : analyze_pair cfg (fst (get_candle cfg w pair)) = Ret (Some s)) :
  exists b,
    In b rows /\
    (forall b', In b' rows -> (y_index b' <= y_index b)%Z) /\
    sig_entry s = y_Close b /\
    sig_rng s = range_proxy (y_High b) (y_Low b) /\
    (60 <= List.length rows)%nat.
Proof.
  rewrite (get_candle_secondary cfg w pair Htd) in Hs.
  unfold fetch_from_yahoo, yahoo_try in Hs. cbn [fst] in Hs. rewrite Hy in Hs.
  assert (Hdf : analyze_pair cfg
                  (Some (map candle_of_bar (sort_index_desc rows)))
                = Ret (Some s)).
  { destruct rows; [ discriminate | exact Hs ]. }
  clear Hs.
  destruct (analyze_pair_some cfg _ s Hdf)
    as (row & rest & Hframe & Hlen & Hentry & Hrng).
  pose proof (sort_index_desc_perm rows) as Hperm.
  pose proof (sort_index_desc_sorted rows) as Hsorted.
  rewrite length_map, sort_index_desc_length in Hlen.
  destruct (sort_index_desc rows) as [ | b bars]; [ discriminate | ].
  cbn [map] in Hframe. injection Hframe as <- _.
  exists b. split; [ apply (Permutation_in _ (Permutation_sym Hperm));
                      now left | ].
  split; [ | now repeat split ].
  intros b' Hb'. apply (Permutation_in _ Hperm) in Hb'.
  destruct Hb' as [<- | Hb']; [ lia | ].
  apply StronglySorted_inv in Hsorted. destruct Hsorted as [_ Hall].
  rewrite Forall_forall in Hall. now apply Hall.
Qed.

Lemma yahoo_signal_quotes_latest_bar_witness :
  exists b,
    In b Replies.rising_bars /\
    y_Close b = 1.9375%float /\
    (forall b', In b' Replies.rising_bars -> (y_index b' <= y_index b)%Z).
Proof.
  destruct (yahoo_signal_quotes_latest_bar
              default_config (Replies.yahoo 0 Replies.rising_bars)
              "EUR/USD" Replies.rising_bars Demo.rising_signal
              eq_refl eq_refl eq_refl)
    as (b & Hin & Hmax & Hclose & _).
  exists b. split; [ exact Hin | ]. split; [ | exact Hmax ].
  symmetry. exact Hclose.
Defined.
